(** * Proxi: the policy engine and the tool execution gateway

    A shallow embedding of

    - [src/guardrails/policy_engine.py]: the loader, the mode controller and
      [validate] (module [policy_engine] below);
    - [src/mcp_server/tools.py]: [CloudInfrastructure] and the tool function
      wrappers (module [tools]);
    - [src/mcp_server/server.py]: the start of the module, [execute_tool] and
      [_execute_tool_function] (module [server]), and the handlers of the
      other endpoints that act on the server (module [endpoints]);
    - of Python's [pathlib], what the two modules use of it to name the
      policy file (module [pathlib]);

    followed by the properties of the policy decision, of the mode
    controller, of the loader, of the gateway and of [scale_fleet], and
    then by further properties of the engine, of the cloud infrastructure
    and of the server.

    Conventions.  A method that reads or writes [self] is a computation in
    the state-and-exception monad [M S], [S] being the object it works on; an
    exception that is raised keeps the writes made before it, as in Python.
    What the program prints is not part of the model, but the evaluation of
    the expressions it prints is, because that evaluation can raise.  Left
    out are the parts that only display: [get_policy_summary] with
    [_format_tool_list], and the two endpoints of server.py that show the
    policy status and the tool catalog. *)

From Stdlib Require Import String Ascii List ZArith Bool Lia.
From Stdlib Require Import Floats.SpecFloat.

Set Warnings "-register-all".
Import ListNotations.

Local Open Scope list_scope.
Local Open Scope string_scope.

(* ===================================================================== *)
(** * Python values, exceptions and the monad *)
(* ===================================================================== *)

Module Py.

(** The values [json.load] returns and the program passes around: [None],
    [bool], [int], [float], [str], [list] and [dict] with [str] keys.  A
    dict is kept as the list of its items in insertion order, which Python
    preserves and the program shows ([list(d.keys())]); a key is looked up
    from the front. *)
Inductive value : Type :=
| VNone
| VBool (b : bool)
| VInt (z : Z)
| VFloat (f : spec_float)
| VStr (s : string)
| VList (l : list value)
| VDict (d : list (string * value)).

Definition dict : Type := list (string * value).

(** Text the program builds with f-strings and [str()]: literal text and
    the interpolated values.  [str] and [repr] of a value that is not a
    [str], and the wording of the interpreter's own errors, are Python's
    and are kept as such instead of being spelled out. *)
Inductive piece : Type :=
| Lit (s : string)          (* literal text, or the content of a str *)
| Str (v : value)           (* str(v), the {v} of an f-string *)
| Repr (v : value)          (* repr(v) *)
| Interpreter.              (* the interpreter's text of a built-in error *)

Definition text : Type := list piece.

(** The exceptions of the program: those the interpreter, [open] and the
    [json] module raise, the [ValueError]s and [FileNotFoundError] the
    program raises with a message of its own, and [PolicyViolationError],
    the class of policy_engine.py with its [tool_name], [mode] and
    [reason]. *)
Inductive exn : Type :=
| FileNotFoundError (msg : text)
| JSONDecodeError
| UnicodeDecodeError
| RecursionError
| OSError
| AttributeError
| KeyError (key : value)
| TypeError
| ValueError (msg : text)
| PolicyViolationError (message : text) (tool_name mode reason : string).

(** [str(e)] *)
Definition str_exn (e : exn) : text :=
  match e with
  | FileNotFoundError msg => msg
  | ValueError msg => msg
  | PolicyViolationError message _ _ _ => message
  | KeyError key => [Repr key]
  | JSONDecodeError | UnicodeDecodeError | RecursionError | OSError
  | AttributeError | TypeError => [Interpreter]
  end.

(** The text as a [string], when every piece of it is a [str]. *)
Fixpoint render (t : text) : option string :=
  match t with
  | [] => Some ""
  | p :: t' =>
      match p, render t' with
      | Lit s, Some r => Some (s ++ r)
      | Str (VStr s), Some r => Some (s ++ r)
      | _, _ => None
      end
  end.

(** What evaluating an expression gives: its value, or the exception it raises. *)
Inductive res (A : Type) : Type :=
| Ok (a : A)
| Raise (e : exn).
Arguments Ok {A} a.
Arguments Raise {A} e.

(** ** Computations on an object of type [S] *)

Definition M (S A : Type) : Type := S -> res A * S.

Definition ret {S A} (a : A) : M S A := fun s => (Ok a, s).

Definition bind {S A B} (c : M S A) (k : A -> M S B) : M S B :=
  fun s =>
    match c s with
    | (Ok a, s') => k a s'
    | (Raise e, s') => (Raise e, s')
    end.

Definition raise {S A} (e : exn) : M S A := fun s => (Raise e, s).

Definition get {S} : M S S := fun s => (Ok s, s).

Definition put {S} (s : S) : M S unit := fun _ => (Ok tt, s).

(** An expression that may raise and touches no state. *)
Definition eval {S A} (r : res A) : M S A := fun s => (r, s).

(** [try: c  except <the e with h e = Some _>: ...]; any other exception
    passes through. *)
Definition try_except {S A} (c : M S A) (h : exn -> option (M S A)) : M S A :=
  fun s =>
    match c s with
    | (Ok a, s') => (Ok a, s')
    | (Raise e, s') =>
        match h e with
        | Some k => k s'
        | None => (Raise e, s')
        end
    end.

(** A computation on a part [T] of the object [S]. *)
Definition zoom {S T A} (proj : S -> T) (upd : S -> T -> S) (c : M T A) : M S A :=
  fun s => let (r, t) := c (proj s) in (r, upd s t).

Definition rbind {A B} (r : res A) (k : A -> res B) : res B :=
  match r with
  | Ok a => k a
  | Raise e => Raise e
  end.

(** ** Operators and methods of the built-in types *)

Fixpoint assoc {V : Type} (k : string) (d : list (string * V)) : option V :=
  match d with
  | [] => None
  | (k', v) :: d' => if String.eqb k k' then Some v else assoc k d'
  end.

Definition mem {V : Type} (k : string) (d : list (string * V)) : bool :=
  match assoc k d with
  | Some _ => true
  | None => false
  end.

Definition keys {V : Type} (d : list (string * V)) : list string := map fst d.

(** [d[k]] on a dict *)
Definition getitem (d : dict) (k : string) : res value :=
  match assoc k d with
  | Some v => Ok v
  | None => Raise (KeyError (VStr k))
  end.

(** [v[k]] with [k] a [str]: a dict is looked up; a list or a str takes
    integer indices only; the other values are not subscriptable. *)
Definition subscript (v : value) (k : string) : res value :=
  match v with
  | VDict d => getitem d k
  | _ => Raise TypeError
  end.

(** [v[k1][k2]] *)
Definition subscript2 (v : value) (k1 k2 : string) : res value :=
  rbind (subscript v k1) (fun x => subscript x k2).

Definition eq_str (x : string) (v : value) : bool :=
  match v with
  | VStr s => String.eqb x s
  | _ => false
  end.

Fixpoint is_substring (x s : string) : bool :=
  prefix x s ||
  match s with
  | EmptyString => false
  | String _ s' => is_substring x s'
  end.

(** [x in c] for a [str] [x]: an element of a list (a str equals only a
    str), a key of a dict, a substring of a str; the other values are not
    iterable. *)
Definition contains (x : string) (c : value) : res bool :=
  match c with
  | VList l => Ok (existsb (eq_str x) l)
  | VDict d => Ok (mem x d)
  | VStr s => Ok (is_substring x s)
  | _ => Raise TypeError
  end.

(** [x in d] for any value [x] and a dict [d] with [str] keys: a list or a
    dict is unhashable, and of the hashable values only a str can equal a
    key.  When [x in d] holds the answer is the key, a str, that [x] is. *)
Definition find_key {V : Type} (x : value) (d : list (string * V)) : res (option string) :=
  match x with
  | VStr s => Ok (if mem s d then Some s else None)
  | VList _ | VDict _ => Raise TypeError
  | _ => Ok None
  end.

(** [d[k] = v]: the value of a key that is there is replaced in place, a
    new key goes to the end. *)
Fixpoint setitem {V : Type} (k : string) (v : V) (d : list (string * V)) : list (string * V) :=
  match d with
  | [] => [(k, v)]
  | (k', v') :: d' =>
      if String.eqb k k' then (k', v) :: d' else (k', v') :: setitem k v d'
  end.

(** Calling with the keyword arguments [arguments] a function of one
    parameter [name], with or without a default: a keyword the function
    does not have, or a missing argument without default, is a
    [TypeError]. *)
Definition keyword_argument (name : string) (default : option value) (arguments : dict) : res value :=
  if forallb (fun kv => String.eqb (fst kv) name) arguments then
    match assoc name arguments, default with
    | Some v, _ => Ok v
    | None, Some v => Ok v
    | None, None => Raise TypeError
    end
  else Raise TypeError.

(** Calling with keyword arguments a function without parameters. *)
Definition no_argument (arguments : dict) : res unit :=
  match arguments with
  | [] => Ok tt
  | _ :: _ => Raise TypeError
  end.

(** [v.get(k, default)]: a dict has the method, the other values json.load
    returns have not. *)
Definition get_method (v : value) (k : string) (default : value) : res value :=
  match v with
  | VDict d =>
      match assoc k d with
      | Some x => Ok x
      | None => Ok default
      end
  | _ => Raise AttributeError
  end.

(** [list(v.keys())] *)
Definition list_keys (v : value) : res value :=
  match v with
  | VDict d => Ok (VList (map VStr (keys d)))
  | _ => Raise AttributeError
  end.

(** The sign of a float minus an integer, both taken exactly, as Python
    compares them; [None] for NaN, which compares false with everything. *)
Definition float_compare_int (f : spec_float) (n : Z) : option comparison :=
  match f with
  | S754_nan => None
  | S754_infinity true => Some Lt
  | S754_infinity false => Some Gt
  | S754_zero _ => Some (0 ?= n)%Z
  | S754_finite s m e =>
      let z := if s then Z.neg m else Z.pos m in
      Some (if (0 <=? e)%Z
            then (z * 2 ^ e ?= n)%Z
            else (z ?= n * 2 ^ (- e))%Z)
  end.

(** [v < n] and [v > n] for an [int] [n]: numbers compare ([bool] is an
    [int]), anything else is a [TypeError]. *)
Definition lt_int (v : value) (n : Z) : res bool :=
  match v with
  | VInt z => Ok (z <? n)%Z
  | VBool b => Ok (Z.b2z b <? n)%Z
  | VFloat f => Ok (match float_compare_int f n with Some Lt => true | _ => false end)
  | _ => Raise TypeError
  end.

Definition gt_int (v : value) (n : Z) : res bool :=
  match v with
  | VInt z => Ok (z >? n)%Z
  | VBool b => Ok (Z.b2z b >? n)%Z
  | VFloat f => Ok (match float_compare_int f n with Some Gt => true | _ => false end)
  | _ => Raise TypeError
  end.

(** [bool(v)] *)
Definition truthy (v : value) : bool :=
  match v with
  | VNone => false
  | VBool b => b
  | VInt z => negb (z =? 0)%Z
  | VFloat (S754_zero _) => false
  | VFloat _ => true
  | VStr s => negb (String.eqb s "")
  | VList l => match l with [] => false | _ => true end
  | VDict d => match d with [] => false | _ => true end
  end.

(** [l[:n]] *)
Definition slice_to {A : Type} (l : list A) (n : value) : res (list A) :=
  let upto (z : Z) :=
    if (0 <=? z)%Z then firstn (Z.to_nat z) l
    else firstn (Z.to_nat (Z.of_nat (length l) + z)) l in
  match n with
  | VNone => Ok l
  | VInt z => Ok (upto z)
  | VBool b => Ok (upto (Z.b2z b))
  | _ => Raise TypeError
  end.

End Py.

Import Py.

Declare Scope py_scope.
Delimit Scope py_scope with py.
Notation "x <- c ;; k" := (bind c (fun x => k))
(at level 61, c at next level, right associativity) : py_scope.
Notation "c ;;; k" := (bind c (fun _ => k))
(at level 61, right associativity) : py_scope.

Notation "'let!' x ':=' r 'in' k" := (rbind r (fun x => k))
  (at level 61, x name, r at next level, right associativity) : py_scope.
Local Open Scope py_scope.

(* ===================================================================== *)
(** * pathlib, as far as the program uses it *)
(* ===================================================================== *)

Module pathlib.

(** A [PosixPath]: its root, which is empty, "/" or "//", and the parts
    that follow it, none of them empty or ".". *)
Record PosixPath : Type := {
  root : string;
  parts : list string
}.

(** [s.split("/")] *)
Fixpoint split (s : string) : list string :=
  match s with
  | EmptyString => [""]
  | String c s' =>
      if Ascii.eqb c "/" then "" :: split s'
      else match split s' with
           | part :: rest => String c part :: rest
           | [] => [String c ""]
           end
  end.

(** ["/".join(l)] *)
Fixpoint join (l : list string) : string :=
  match l with
  | [] => ""
  | [part] => part
  | part :: rest => part ++ "/" ++ join rest
  end.

(** The root of a path: two leading slashes, and two only, are kept. *)
Definition splitroot (s : string) : string :=
  match s with
  | String "/" (String "/" (String "/" _)) => "/"
  | String "/" (String "/" _) => "//"
  | String "/" _ => "/"
  | _ => ""
  end.

Definition is_part (part : string) : bool :=
  negb (String.eqb part "") && negb (String.eqb part ".").

(** [Path(s)] *)
Definition Path (s : string) : PosixPath :=
  {| root := splitroot s; parts := filter is_part (split s) |}.

(** [str(p)] *)
Definition str (p : PosixPath) : string :=
  match root p, parts p with
  | EmptyString, [] => "."
  | r, l => r ++ join l
  end.

(** [p.parent] *)
Definition parent (p : PosixPath) : PosixPath :=
  {| root := root p; parts := removelast (parts p) |}.

(** [p / s] for a str [s]: an absolute [s] replaces [p]. *)
Definition joinpath (p : PosixPath) (s : string) : PosixPath :=
  match s with
  | String "/" _ => Path s
  | _ => {| root := root p; parts := (parts p ++ parts (Path s))%list |}
  end.

(** The paths that [Path], [parent] and [joinpath] make: the root is empty,
    "/" or "//", and no part is empty, "." or holds a "/". *)
Definition normal (p : PosixPath) : Prop :=
  (root p = "" \/ root p = "/" \/ root p = "//")
  /\ Forall (fun part => is_part part = true /\ split part = [part]) (parts p).
End pathlib.

(* ===================================================================== *)
(** * guardrails/policy_engine.py *)
(* ===================================================================== *)

Module policy_engine.

(** The policy file as the loader meets it.  Reading and parsing are
    Python's ([open], [json.load]); what exists at a path is given by what
    they make of it: the value [json.load] returns, or the exception that
    [exists], [open] or [json.load] raises ([OSError] for what cannot be
    reached or opened, [UnicodeDecodeError] for bytes that are no text,
    [JSONDecodeError] for text that is no JSON, [ValueError] or
    [RecursionError] for JSON beyond the parser's limits). *)
Inductive file : Type :=
| Fails (e : exn)             (* exists, open or json.load raises e *)
| Parses_to (v : value).      (* json.load returns v *)

(** [fs (str(path))] is [None] when [path.exists()] is false. *)
Definition filesystem : Type := string -> option file.

(** The attributes of a [PolicyEngine]. *)
Record PolicyEngine : Type := {
  policy_path : pathlib.PosixPath;
  policy : value;
  current_mode : string
}.

(** [self.current_mode = mode] *)
Definition with_current_mode (mode : string) (self : PolicyEngine) : PolicyEngine :=
  {| policy_path := policy_path self;
     policy := policy self;
     current_mode := mode |}.

(** [_load_policy], reading [self.policy_path]: the two [print]s call
    [policy.get], which only a dict has. *)
Definition _load_policy (fs : filesystem) (policy_path : pathlib.PosixPath) : res value :=
  match fs (pathlib.str policy_path) with
  | None =>
      Raise (FileNotFoundError [Lit "Policy file not found: ";
                                Lit (pathlib.str policy_path)])
  | Some (Fails e) => Raise e
  | Some (Parses_to policy) =>
      let! _ := get_method policy "policy_name" (VStr "Unknown") in
      let! _ := get_method policy "version" (VStr "Unknown") in
      Ok policy
  end.

(** [PolicyEngine(policy_path)], for a str [policy_path] *)
Definition __init__ (fs : filesystem) (policy_path : string) : res PolicyEngine :=
  let policy_path := pathlib.Path policy_path in
  let! policy := _load_policy fs policy_path in
  Ok {| policy_path := policy_path;
        policy := policy;
        current_mode := "NORMAL" |}.      (* Default to most restrictive mode *)

(** [set_mode]: the mode is checked against [self.policy['modes']], then
    stored, then the mode's description is read for the [print]. *)
Definition set_mode (mode : string) : M PolicyEngine unit :=
  self <- get ;;
  modes <- eval (subscript (policy self) "modes") ;;
  known <- eval (contains mode modes) ;;
  if negb known then
    modes <- eval (subscript (policy self) "modes") ;;
    available <- eval (list_keys modes) ;;
    raise (ValueError [Lit "Invalid mode: "; Lit mode;
                       Lit ". Available: "; Str available])
  else
    put (with_current_mode mode self) ;;;
    rules <- eval (subscript2 (policy self) "modes" mode) ;;
    _ <- eval (subscript rules "description") ;;
    ret tt.

Definition get_current_mode : M PolicyEngine string :=
  self <- get ;;
  ret (current_mode self).

Definition get_allowed_tools : M PolicyEngine value :=
  self <- get ;;
  rules <- eval (subscript2 (policy self) "modes" (current_mode self)) ;;
  eval (subscript rules "allowed_tools").

Definition get_blocked_tools : M PolicyEngine value :=
  self <- get ;;
  rules <- eval (subscript2 (policy self) "modes" (current_mode self)) ;;
  eval (subscript rules "blocked_tools").

(** [args or {}] *)
Definition or_empty (d : option dict) : dict :=
  match d with
  | Some (_ :: _ as d') => d'
  | _ => []
  end.

(** [validate]: returns [True] or raises [PolicyViolationError], with its
    message, the tool, the mode and its [reason]. *)
Definition validate (tool_name : string) (args context : option dict) : M PolicyEngine bool :=
  let args := or_empty args in
  let context := or_empty context in
  self <- get ;;
  (* Check global rules first (always blocked tools) *)
  always_blocked <- eval (subscript2 (policy self) "global_rules" "always_blocked") ;;
  in_always_blocked <- eval (contains tool_name always_blocked) ;;
  if in_always_blocked then
    raise (PolicyViolationError
             [Lit "Tool '"; Lit tool_name;
              Lit "' is globally blocked and can never be executed"]
             tool_name
             (current_mode self)
             "Globally blocked - destructive operation")
  else
    (* Get the current mode's policy *)
    mode_policy <- eval (subscript2 (policy self) "modes" (current_mode self)) ;;
    allowed_tools <- eval (subscript mode_policy "allowed_tools") ;;
    blocked_tools <- eval (subscript mode_policy "blocked_tools") ;;
    (* Check if tool is explicitly blocked in current mode *)
    in_blocked_tools <- eval (contains tool_name blocked_tools) ;;
    if in_blocked_tools then
      rationale <- eval (subscript mode_policy "rationale") ;;
      raise (PolicyViolationError
               [Lit "Tool '"; Lit tool_name; Lit "' is blocked in ";
                Lit (current_mode self); Lit " mode. ";
                Lit "Rationale: "; Str rationale]
               tool_name
               (current_mode self)
               ("Blocked in " ++ current_mode self ++ " mode"))
    else
      (* Check if tool is in allowed list *)
      in_allowed_tools <- eval (contains tool_name allowed_tools) ;;
      if negb in_allowed_tools then
        raise (PolicyViolationError
                 [Lit "Tool '"; Lit tool_name; Lit "' is not in the allowed list for ";
                  Lit (current_mode self); Lit " mode"]
                 tool_name
                 (current_mode self)
                 ("Not whitelisted for " ++ current_mode self ++ " mode"))
      else
        (* Validation passed *)
        ret true.

(** The answer of [validate] for a policy, a mode and a tool: that of an
    engine holding them, called without [args] and [context]. *)
Definition decision (policy : value) (mode tool_name : string) : res bool :=
  fst (validate tool_name None None
         {| policy_path := pathlib.Path ""; policy := policy; current_mode := mode |}).

End policy_engine.

(* ===================================================================== *)
(** * mcp_server/tools.py *)
(* ===================================================================== *)

Module tools.

(** The attributes of a [CloudInfrastructure].  The health of a service is
    a [str]; [fleet_size] holds whatever [scale_fleet] was last given. *)
Record CloudInfrastructure : Type := {
  services : list (string * string);
  fleet_size : value;
  execution_log : list value
}.

Definition __init__ : CloudInfrastructure :=
  {| services := [("web-server", "healthy"); ("api-gateway", "healthy");
                  ("database", "healthy"); ("cache", "healthy")];
     fleet_size := VInt 3;
     execution_log := [] |}.

(** [datetime.now().isoformat()]: the clock is the environment's; its
    successive readings are given, and [reads] counts those taken. *)
Record Clock : Type := {
  reading : nat -> string;
  reads : nat
}.

(** The module's global [cloud_infra], the [self] of every call, and the
    clock. *)
Record State : Type := {
  cloud_infra : CloudInfrastructure;
  clock : Clock
}.

Definition now_isoformat : M State string :=
  fun s =>
    (Ok (reading (clock s) (reads (clock s))),
     {| cloud_infra := cloud_infra s;
        clock := {| reading := reading (clock s); reads := S (reads (clock s)) |} |}).

Definition self : M State CloudInfrastructure :=
  s <- get ;;
  ret (cloud_infra s).

Definition update (f : CloudInfrastructure -> CloudInfrastructure) : M State unit :=
  s <- get ;;
  put {| cloud_infra := f (cloud_infra s); clock := clock s |}.

Definition with_services (sv : list (string * string)) (c : CloudInfrastructure) : CloudInfrastructure :=
  {| services := sv; fleet_size := fleet_size c; execution_log := execution_log c |}.

Definition with_fleet_size (n : value) (c : CloudInfrastructure) : CloudInfrastructure :=
  {| services := services c; fleet_size := n; execution_log := execution_log c |}.

Definition with_execution_log (l : list value) (c : CloudInfrastructure) : CloudInfrastructure :=
  {| services := services c; fleet_size := fleet_size c; execution_log := l |}.

(** The value of an entry of a returned dict: a value, or an f-string. *)
Inductive entry : Type :=
| Val (v : value)
| Fmt (t : text).

Definition returned : Type := list (string * entry).

Definition str_ (s : string) : entry := Val (VStr s).

(** [self.services] and [list(self.services.keys())] as values. *)
Definition services_dict (c : CloudInfrastructure) : value :=
  VDict (map (fun kv => (fst kv, VStr (snd kv))) (services c)).

Definition services_keys (c : CloudInfrastructure) : value :=
  VList (map VStr (keys (services c))).

Definition log_entry (timestamp action : string) (details : dict) : value :=
  VDict [("timestamp", VStr timestamp);
         ("action", VStr action);
         ("details", VDict details)].

Definition _log_action (action : string) (details : dict) : M State unit :=
  timestamp <- now_isoformat ;;
  update (fun c =>
            with_execution_log
              (execution_log c ++ [log_entry timestamp action details])%list c).

Definition list_services : M State returned :=
  _log_action "list_services" [] ;;;
  c <- self ;;
  timestamp <- now_isoformat ;;
  ret [("services", Val (services_keys c)); ("timestamp", str_ timestamp)].

(** [service] and [status] are the [str] parameters of the endpoint. *)
Definition set_service_health (service status : string) : M State unit :=
  c <- self ;;
  if mem service (services c)
  then update (with_services (setitem service status (services c)))
  else ret tt.

Definition not_found (service_name : value) (c : CloudInfrastructure) : returned :=
  [("status", str_ "error");
   ("message", Fmt [Lit "Service '"; Str service_name; Lit "' not found"]);
   ("available_services", Val (services_keys c))].

Definition get_service_status (service_name : value) : M State returned :=
  _log_action "get_service_status" [("service", service_name)] ;;;
  c <- self ;;
  if truthy service_name then
    found <- eval (find_key service_name (services c)) ;;
    match found with
    | None => ret (not_found service_name c)
    | Some k =>
        health <- eval (match assoc k (services c) with
                        | Some h => Ok h
                        | None => Raise (KeyError (VStr k))
                        end) ;;
        timestamp <- now_isoformat ;;
        ret [("service", Val service_name); ("health", str_ health);
             ("timestamp", str_ timestamp)]
    end
  else
    timestamp <- now_isoformat ;;
    ret [("services", Val (services_dict c)); ("fleet_size", Val (fleet_size c));
         ("timestamp", str_ timestamp)].

Definition log_entries : list string :=
  ["[INFO] Web server processing request - 200 OK";
   "[INFO] Database connection pool: 45/100 active";
   "[WARN] API response time: 234ms (threshold: 200ms)";
   "[INFO] Cache hit rate: 87%";
   "[INFO] Fleet health check: All instances responding"].

Definition read_logs (lines : value) : M State returned :=
  _log_action "read_logs" [("lines", lines)] ;;;
  log_lines <- eval (slice_to log_entries lines) ;;
  timestamp <- now_isoformat ;;
  ret [("log_lines", Val (VList (map VStr log_lines)));
       ("timestamp", str_ timestamp);
       ("total_available", Val (VInt (Z.of_nat (length log_entries))))].

Definition restart_service (service_name : value) : M State returned :=
  _log_action "restart_service" [("service", service_name)] ;;;
  c <- self ;;
  found <- eval (find_key service_name (services c)) ;;
  match found with
  | None => ret (not_found service_name c)
  | Some k =>
      (* Simulate service restart improving health *)
      update (with_services (setitem k "healthy" (services c))) ;;;
      timestamp <- now_isoformat ;;
      ret [("status", str_ "success");
           ("service", Val service_name);
           ("action", str_ "restart");
           ("new_health", str_ "healthy");
           ("message", Fmt [Lit "Service '"; Str service_name;
                            Lit "' successfully restarted"]);
           ("timestamp", str_ timestamp)]
  end.

Definition scale_fleet (count : value) : M State returned :=
  _log_action "scale_fleet" [("target_count", count)] ;;;
  too_small <- eval (lt_int count 1) ;;
  if too_small then
    ret [("status", str_ "error");
         ("message", str_ "Fleet size must be at least 1")]
  else
    too_large <- eval (gt_int count 100) ;;
    if too_large then
      ret [("status", str_ "error");
           ("message", str_ "Fleet size cannot exceed 100 instances")]
    else
      c <- self ;;
      let old_size := fleet_size c in
      update (with_fleet_size count) ;;;
      timestamp <- now_isoformat ;;
      ret [("status", str_ "success");
           ("action", str_ "scale");
           ("old_size", Val old_size);
           ("new_size", Val count);
           ("message", Fmt [Lit "Fleet scaled from "; Str old_size;
                            Lit " to "; Str count; Lit " instances"]);
           ("timestamp", str_ timestamp)].

Definition delete_database (db_name : value) : M State returned :=
  _log_action "delete_database" [("db_name", db_name)] ;;;
  timestamp <- now_isoformat ;;
  ret [("status", str_ "error");
       ("message", str_ "This operation should never execute - policy violation!");
       ("db_name", Val db_name);
       ("timestamp", str_ timestamp)].

(** ** Tool function wrappers

    Each returns [str(result)]: the text of a dict, given by the dict. *)
Inductive output : Type :=
| str (r : returned).

Definition wrapper_get_service_status (service_name : value) : M State output :=
  r <- get_service_status service_name ;; ret (str r).

Definition wrapper_read_logs (lines : value) : M State output :=
  r <- read_logs lines ;; ret (str r).

Definition wrapper_restart_service (service_name : value) : M State output :=
  r <- restart_service service_name ;; ret (str r).

Definition wrapper_scale_fleet (count : value) : M State output :=
  r <- scale_fleet count ;; ret (str r).

Definition wrapper_delete_database (db_name : value) : M State output :=
  r <- delete_database db_name ;; ret (str r).

Definition wrapper_list_services : M State output :=
  r <- list_services ;; ret (str r).

End tools.

(* ===================================================================== *)
(** * mcp_server/server.py *)
(* ===================================================================== *)

Module server.

Import policy_engine.

(** The module's globals: [policy_engine], and [cloud_infra] of tools.py
    with the clock its methods read. *)
Record Server : Type := {
  engine : PolicyEngine;
  cloud : tools.State
}.

(** The policy file the module loads, three directories above the file of
    the module, [__file__]. *)
Definition policy_path (__file__ : string) : pathlib.PosixPath :=
  pathlib.joinpath
    (pathlib.joinpath
       (pathlib.parent (pathlib.parent (pathlib.parent (pathlib.Path __file__))))
       "policies")
    "ops_policy.json".

(** Importing the module, which is the file [__file__]: tools.py makes
    [cloud_infra], then the policy engine is constructed; an exception
    there ends the import. *)
Definition startup (__file__ : string) (fs : filesystem) (clock : tools.Clock) : res Server :=
  let cloud_infra := tools.__init__ in
  let! policy_engine := __init__ fs (pathlib.str (policy_path __file__)) in
  Ok {| engine := policy_engine;
        cloud := {| tools.cloud_infra := cloud_infra; tools.clock := clock |} |}.

Definition on_engine {A} (c : M PolicyEngine A) : M Server A :=
  zoom engine (fun s e => {| engine := e; cloud := cloud s |}) c.

Definition on_cloud {A} (c : M tools.State A) : M Server A :=
  zoom cloud (fun s w => {| engine := engine s; cloud := w |}) c.

Record ToolRequest : Type := {
  tool_name : string;
  arguments : dict;
  context : option dict
}.

Record ToolResponse : Type := {
  success : bool;
  result : option tools.output;
  error : option text;
  policy_violation : bool;
  blocked_reason : option text
}.

(** [tool_map]: each function is called with the keyword arguments of the
    request. *)
Definition tool_map : list (string * (dict -> M tools.State tools.output)) :=
  [("get_service_status",
      fun arguments =>
        service_name <- eval (keyword_argument "service_name" (Some VNone) arguments) ;;
        tools.wrapper_get_service_status service_name);
   ("read_logs",
      fun arguments =>
        lines <- eval (keyword_argument "lines" (Some (VInt 10)) arguments) ;;
        tools.wrapper_read_logs lines);
   ("restart_service",
      fun arguments =>
        service_name <- eval (keyword_argument "service_name" None arguments) ;;
        tools.wrapper_restart_service service_name);
   ("scale_fleet",
      fun arguments =>
        count <- eval (keyword_argument "count" None arguments) ;;
        tools.wrapper_scale_fleet count);
   ("delete_database",
      fun arguments =>
        db_name <- eval (keyword_argument "db_name" None arguments) ;;
        tools.wrapper_delete_database db_name);
   ("list_services",
      fun arguments =>
        _ <- eval (no_argument arguments) ;;
        tools.wrapper_list_services)].

Definition _execute_tool_function (tool_name : string) (arguments : dict) : M tools.State tools.output :=
  match assoc tool_name tool_map with
  | None => raise (ValueError [Lit "Unknown tool: "; Lit tool_name])
  | Some tool_function =>
      (* Execute the tool with its arguments *)
      try_except (tool_function arguments)
        (fun e =>
           match e with
           | TypeError =>
               Some (raise (ValueError [Lit "Invalid arguments for "; Lit tool_name;
                                        Lit ": "; Interpreter]))
           | _ => None
           end)
  end.

(** The response to a request the policy denies. *)
Definition denied (e_str : text) (e_reason : string) : ToolResponse :=
  {| success := false;
     result := None;
     error := Some [Lit "Policy violation: "; Lit e_reason];
     policy_violation := true;
     blocked_reason := Some e_str |}.

Definition succeeded (r : tools.output) : ToolResponse :=
  {| success := true;
     result := Some r;
     error := None;
     policy_violation := false;
     blocked_reason := None |}.

Definition failed (e : exn) : ToolResponse :=
  {| success := false;
     result := None;
     error := Some (Lit "Execution error: " :: str_exn e);
     policy_violation := false;
     blocked_reason := None |}.

(** [execute_tool]: the handler of POST /tools/execute.  An exception of
    [validate] other than [PolicyViolationError] is not caught here. *)
Definition execute_tool (request : ToolRequest) : M Server ToolResponse :=
  let tool_name := tool_name request in
  let arguments := arguments request in
  let context := context request in
  _ <- on_engine get_current_mode ;;
  (* CRITICAL: Validate against policy BEFORE execution *)
  blocked <- try_except
               (_ <- on_engine (validate tool_name (Some arguments) context) ;;
                ret None)
               (fun e =>
                  match e with
                  | PolicyViolationError _ _ _ reason =>
                      Some (ret (Some (denied (str_exn e) reason)))
                  | _ => None
                  end) ;;
  match blocked with
  | Some response => ret response
  | None =>
      (* Policy check passed - execute the tool *)
      try_except
        (result <- on_cloud (_execute_tool_function tool_name arguments) ;;
         ret (succeeded result))
        (fun e => Some (ret (failed e)))
  end.

End server.

(* ===================================================================== *)
(** * The demonstration policy *)
(* ===================================================================== *)

Module ops_policy.

Import policy_engine.

Definition strs (l : list string) : value := VList (map VStr l).

(** Modelled from the spec: policies/ops_policy.json, the file the server
    loads, is not among the sources.  The spec gives its rules (section 8,
    scenario A, with the tool names of the server's [tool_map]): NORMAL
    allows the three read-only tools and blocks restart and scale,
    EMERGENCY allows all five and blocks none, and [delete_database] is
    always blocked.  The texts of [policy_name], [version], [description]
    and [rationale] are not given by the spec; those below stand in for
    them.  The policy is used for examples only: no property below is
    about it.  First the rules of its NORMAL mode. *)
Definition normal_rules : dict :=
  [("description", VStr "Normal operations");
   ("rationale", VStr "Read-only while healthy");
   ("allowed_tools", strs ["get_service_status"; "read_logs"; "list_services"]);
   ("blocked_tools", strs ["restart_service"; "scale_fleet"])].

(** Modelled from the spec: the rules of the EMERGENCY mode of the same
    file. *)
Definition emergency_rules : dict :=
  [("description", VStr "Incident response");
   ("rationale", VStr "Corrective actions during an incident");
   ("allowed_tools",
      strs ["get_service_status"; "read_logs"; "list_services";
            "restart_service"; "scale_fleet"]);
   ("blocked_tools", strs [])].

(** Modelled from the spec: the two modes of the same file. *)
Definition modes : dict :=
  [("NORMAL", VDict normal_rules); ("EMERGENCY", VDict emergency_rules)].

(** Modelled from the spec: the whole of the same file. *)
Definition document : value :=
  VDict
    [("policy_name", VStr "ops_policy");
     ("version", VStr "1.0");
     ("global_rules", VDict [("always_blocked", strs ["delete_database"])]);
     ("modes", VDict modes)].

(** Where the server's module is, for the examples, and the policy file
    it then loads: "/srv/proxi/policies/ops_policy.json". *)
Definition module_file : string := "/srv/proxi/src/mcp_server/server.py".

(** [policy_path] of server.py for that module file. *)
Definition path : pathlib.PosixPath := server.policy_path module_file.

(** A file system that holds the document at the server's path only. *)
Definition fs : filesystem :=
  fun name =>
    if String.eqb name (pathlib.str path) then Some (Parses_to document) else None.

Definition engine_in (mode : string) : PolicyEngine :=
  {| policy_path := path; policy := document; current_mode := mode |}.

Definition clock : tools.Clock :=
  {| tools.reading := fun _ => "2024-01-01T00:00:00"; tools.reads := 0 |}.

Definition server_in (mode : string) : server.Server :=
  {| server.engine := engine_in mode;
     server.cloud := {| tools.cloud_infra := tools.__init__; tools.clock := clock |} |}.

End ops_policy.

(* ===================================================================== *)
(** * The life of an engine *)
(* ===================================================================== *)

Module lifecycle.

Import policy_engine.

(** The calls the server and the tests make on an engine. *)
Inductive call : Type :=
| Set_mode (mode : string)
| Get_current_mode
| Get_allowed_tools
| Get_blocked_tools
| Validate (tool_name : string) (args context : option dict).

(** The engine after a call, whether the call returned or raised. *)
Definition after (c : call) (self : PolicyEngine) : PolicyEngine :=
  match c with
  | Set_mode mode => snd (set_mode mode self)
  | Get_current_mode => snd (get_current_mode self)
  | Get_allowed_tools => snd (get_allowed_tools self)
  | Get_blocked_tools => snd (get_blocked_tools self)
  | Validate tool_name args context => snd (validate tool_name args context self)
  end.

(** The engines a process can hold: the one constructed from the policy
    file, and any engine reached from it by calls. *)
Inductive reachable (fs : filesystem) (path : string) : PolicyEngine -> Prop :=
| reach_init : forall self,
    __init__ fs path = Ok self -> reachable fs path self
| reach_call : forall self c,
    reachable fs path self -> reachable fs path (after c self).

(** [self.current_mode] is a key of the dict [self.policy['modes']]. *)
Definition mode_defined (self : PolicyEngine) : bool :=
  match subscript (policy self) "modes" with
  | Ok (VDict modes) => mem (current_mode self) modes
  | _ => false
  end.

(** A policy whose only mode is EMERGENCY, and a document without keys. *)
Definition emergency_only : value :=
  VDict
    [("global_rules", VDict [("always_blocked", ops_policy.strs ["delete_database"])]);
     ("modes",
        VDict
          [("EMERGENCY",
              VDict [("description", VStr "Incident response");
                     ("rationale", VStr "Corrective actions during an incident");
                     ("allowed_tools", ops_policy.strs ["restart_service"]);
                     ("blocked_tools", ops_policy.strs [])])])].

(** A policy that lists [delete_database] as always blocked and as allowed
    in its mode, and [restart_service] as both allowed and blocked there. *)
Definition overlapping_rules : dict :=
  [("description", VStr "Incident response");
   ("rationale", VStr "Corrective actions during an incident");
   ("allowed_tools",
      ops_policy.strs ["delete_database"; "restart_service"; "reboot_rack"]);
   ("blocked_tools", ops_policy.strs ["restart_service"])].

Definition overlapping : value :=
  VDict
    [("global_rules", VDict [("always_blocked", ops_policy.strs ["delete_database"])]);
     ("modes", VDict [("EMERGENCY", VDict overlapping_rules)])].

Definition engine_with (document : value) (mode : string) : PolicyEngine :=
  {| policy_path := ops_policy.path; policy := document; current_mode := mode |}.

Definition holding (document : value) : filesystem :=
  fun _ => Some (Parses_to document).

Definition server_with (document : value) (mode : string) : server.Server :=
  {| server.engine := engine_with document mode;
     server.cloud := {| tools.cloud_infra := tools.__init__;
                        tools.clock := ops_policy.clock |} |}.

End lifecycle.

(* ===================================================================== *)
(** * mcp_server/server.py: the other endpoints *)
(* ===================================================================== *)

Module endpoints.

Import policy_engine server.

(** How a handler ends: it returns its answer, it raises [HTTPException],
    or an exception it does not catch leaves it. *)
Inductive reply (A : Type) : Type :=
| Returns (a : A)
| HTTPException (status_code : Z) (detail : text)
| Propagates (e : exn).
Arguments Returns {A} a.
Arguments HTTPException {A} status_code detail.
Arguments Propagates {A} e.

Definition handler (A : Type) : Type := Server -> reply A * Server.

(** A handler that catches nothing. *)
Definition uncaught {A} (c : M Server A) : handler A :=
  fun s =>
    match c s with
    | (Ok a, s') => (Returns a, s')
    | (Raise e, s') => (Propagates e, s')
    end.

(** GET / *)
Definition root : handler dict :=
  uncaught
    (current_mode <- on_engine get_current_mode ;;
     ret [("service", VStr "Proxi MCP Server");
          ("status", VStr "operational");
          ("current_mode", VStr current_mode);
          ("policy_engine", VStr "active")]).

(** POST /policy/set-mode: [ValueError] becomes a 400; the mode is set and
    the allowed tools are read inside the [try]. *)
Definition set_mode (mode : string) : handler dict :=
  fun s =>
    match on_engine
            (policy_engine.set_mode mode ;;;
             allowed_tools <- get_allowed_tools ;;
             ret [("success", VBool true);
                  ("new_mode", VStr mode);
                  ("allowed_tools", allowed_tools)]) s with
    | (Ok answer, s') => (Returns answer, s')
    | (Raise (ValueError msg), s') => (HTTPException 400 (str_exn (ValueError msg)), s')
    | (Raise e, s') => (Propagates e, s')
    end.

(** [l[-n:]] for a positive [n] *)
Definition last_n {A : Type} (n : nat) (l : list A) : list A :=
  skipn (length l - n) l.

(** GET /infrastructure/status *)
Definition get_infrastructure_status : handler dict :=
  uncaught
    (c <- on_cloud tools.self ;;
     ret [("services", tools.services_dict c);
          ("fleet_size", tools.fleet_size c);
          ("recent_actions", VList (last_n 10 (tools.execution_log c)))]).

(** POST /infrastructure/simulate-incident: [service] and [status] are
    query parameters, [status] with the default "critical". *)
Definition simulate_incident (service : string) (status : option string) : handler tools.returned :=
  let status := match status with
                | Some given => given
                | None => "critical"
                end in
  uncaught
    (on_cloud (tools.set_service_health service status) ;;;
     ret [("success", tools.Val (VBool true));
          ("message", tools.Fmt [Lit "Simulated incident: "; Lit service;
                                 Lit " set to "; Lit status])]).

(** [execute_tool] as a handler: what it does not catch leaves it. *)
Definition execute_tool (request : ToolRequest) : handler ToolResponse :=
  uncaught (server.execute_tool request).

(** The requests that can change the server, and the server after one of
    them is handled, however the handler ends.  The endpoints left out
    ([get_policy_status], [get_tool_catalog]) call the getters of the
    engine only. *)
Inductive request : Type :=
| Root
| SetMode (mode : string)
| InfrastructureStatus
| SimulateIncident (service : string) (status : option string)
| ExecuteTool (r : ToolRequest).

Definition handle (q : request) (s : Server) : Server :=
  match q with
  | Root => snd (root s)
  | SetMode mode => snd (set_mode mode s)
  | InfrastructureStatus => snd (get_infrastructure_status s)
  | SimulateIncident service status => snd (simulate_incident service status s)
  | ExecuteTool r => snd (execute_tool r s)
  end.

(** The states of a server: the one the module starts in, wherever its
    file is, and the states reached from it by handling requests. *)
Inductive serving (fs : filesystem) (clock : tools.Clock) : Server -> Prop :=
| serving_start : forall __file__ s,
    startup __file__ fs clock = Ok s -> serving fs clock s
| serving_step : forall s q,
    serving fs clock s -> serving fs clock (handle q s).

(** The [action] of an entry of the execution log. *)
Definition action_of (log_entry : value) : option value :=
  match log_entry with
  | VDict d => assoc "action" d
  | _ => None
  end.

(** The parameter of each function of [tool_map], with its default when it
    has one; [list_services] has no parameter. *)
Definition parameter_of (tool_name : string) : option (string * option value) :=
  if String.eqb tool_name "get_service_status" then Some ("service_name", Some VNone)
  else if String.eqb tool_name "read_logs" then Some ("lines", Some (VInt 10))
  else if String.eqb tool_name "restart_service" then Some ("service_name", None)
  else if String.eqb tool_name "scale_fleet" then Some ("count", None)
  else if String.eqb tool_name "delete_database" then Some ("db_name", None)
  else None.

(** The fleet size is a number that the checks of [scale_fleet] let pass:
    it is not below 1 and not above 100, as Python compares. *)
Definition fleet_in_bounds (c : tools.CloudInfrastructure) : Prop :=
  lt_int (tools.fleet_size c) 1 = Ok false
  /\ gt_int (tools.fleet_size c) 100 = Ok false.

(** What a call of a tool function can have done to the infrastructure. *)
Definition tool_effect (tool_name : string) (w w' : tools.State) : Prop :=
  keys (tools.services (tools.cloud_infra w')) = keys (tools.services (tools.cloud_infra w))
  /\ (fleet_in_bounds (tools.cloud_infra w) -> fleet_in_bounds (tools.cloud_infra w'))
  /\ (tools.execution_log (tools.cloud_infra w') = tools.execution_log (tools.cloud_infra w)
      \/ exists timestamp details,
           tools.execution_log (tools.cloud_infra w')
           = (tools.execution_log (tools.cloud_infra w)
              ++ [tools.log_entry timestamp tool_name details])%list).

(** The answer to a request whose arguments the tool function refuses. *)
Definition invalid_arguments (tool_name : string) : ToolResponse :=
  {| success := false;
     result := None;
     error := Some [Lit "Execution error: "; Lit "Invalid arguments for ";
                    Lit tool_name; Lit ": "; Interpreter];
     policy_violation := false;
     blocked_reason := None |}.

End endpoints.

(* ===================================================================== *)
(** * Properties of the policy decision *)
(* ===================================================================== *)

(** Running a computation: the monad's operations are unfolded and the
    state is passed along. *)
Create HintDb py discriminated.
#[local] Hint Unfold bind ret raise get put eval try_except zoom : py.

Ltac run := autounfold with py; simpl.

(** Every way the evaluation of the remaining tests can go. *)
Ltac by_cases_on_evaluation :=
  repeat match goal with
         | |- context [match ?r with Ok _ => _ | Raise _ => _ end] => destruct r; simpl
         | |- context [if ?b then _ else _] => destruct b; simpl
         end; try reflexivity.

Section Paths.

Import pathlib.

(** [Path] drops empty parts and "." parts and keeps "..", as [pathlib]
    does; [str] of the empty path is ".". *)
Example Path_normalises :
  pathlib.str (pathlib.Path "./policies//ops_policy.json") = "policies/ops_policy.json"
  /\ pathlib.str (pathlib.Path "policies/../ops_policy.json/")
     = "policies/../ops_policy.json"
  /\ pathlib.str (pathlib.Path "") = "."
  /\ pathlib.str (pathlib.Path "//srv///proxi") = "//srv/proxi"
  /\ pathlib.str (pathlib.Path "///srv/proxi") = "/srv/proxi".
Proof. repeat split. Qed.

(** The policy file of the server for an absolute and for a relative
    module file. *)
Example policy_path_of_module_file :
  pathlib.str (server.policy_path "/srv/proxi/src/mcp_server/server.py")
  = "/srv/proxi/policies/ops_policy.json"
  /\ pathlib.str (server.policy_path "src/mcp_server/server.py")
     = "policies/ops_policy.json"
  /\ pathlib.str (server.policy_path "server.py") = "policies/ops_policy.json".
Proof. repeat split. Qed.

Lemma split_not_nil (s : string) : split s <> [].
Proof.
  induction s as [| c s IH]; simpl; [discriminate |].
  destruct (Ascii.eqb c "/"); [discriminate |].
  destruct (split s); discriminate.
Qed.

Lemma split_parts (s : string) : Forall (fun part => split part = [part]) (split s).
Proof.
  induction s as [| c s IH]; simpl.
  - constructor; [reflexivity | constructor].
  - destruct (Ascii.eqb c "/") eqn:Hc.
    + constructor; [reflexivity | exact IH].
    + destruct (split s) as [| part rest]; simpl.
      * constructor; [| constructor]. simpl. rewrite Hc. reflexivity.
      * inversion IH as [| ? ? Hpart Hrest]; subst.
        constructor; [| exact Hrest]. simpl. rewrite Hc, Hpart. reflexivity.
Qed.

Lemma split_one (c : ascii) (s : string) :
  split (String c s) = [String c s] -> Ascii.eqb c "/" = false /\ split s = [s].
Proof.
  simpl. destruct (Ascii.eqb c "/").
  - intros H. injection H as H _. discriminate H.
  - intros H. split; [reflexivity |].
    destruct (split s) as [| part rest] eqn:Hs.
    + exfalso. exact (split_not_nil s Hs).
    + injection H as -> ->. reflexivity.
Qed.

Lemma split_append (a b : string) :
  split a = [a] -> split (a ++ "/" ++ b) = a :: split b.
Proof.
  induction a as [| c a IH]; intros Ha.
  - reflexivity.
  - destruct (split_one c a Ha) as [Hc Ha'].
    change (split (String c (a ++ "/" ++ b)) = String c a :: split b).
    simpl. rewrite Hc. simpl in IH. rewrite (IH Ha'). reflexivity.
Qed.

Lemma split_join (part : string) (rest : list string) :
  Forall (fun part => split part = [part]) (part :: rest) ->
  split (join (part :: rest)) = part :: rest.
Proof.
  revert part. induction rest as [| part' rest IH]; intros part H.
  - inversion H; subst. assumption.
  - inversion H as [| ? ? Hpart Hrest]; subst.
    change (split (part ++ "/" ++ join (part' :: rest)) = part :: part' :: rest).
    rewrite (split_append _ _ Hpart), (IH part' Hrest). reflexivity.
Qed.

Lemma filter_parts (l : list string) :
  Forall (fun part => is_part part = true /\ split part = [part]) l ->
  filter is_part l = l.
Proof.
  induction 1 as [| part l [Hp _] _ IH]; simpl; [reflexivity |].
  rewrite Hp, IH. reflexivity.
Qed.

Lemma parts_split (l : list string) :
  Forall (fun part => is_part part = true /\ split part = [part]) l ->
  Forall (fun part => split part = [part]) l.
Proof. apply Forall_impl. intros part [_ H]. exact H. Qed.

(** A joined path begins with the first character of its first part, which
    is no "/". *)
Lemma join_head (part : string) (rest : list string) :
  is_part part = true -> split part = [part] ->
  exists c s, join (part :: rest) = String c s /\ Ascii.eqb c "/" = false.
Proof.
  intros Hp Hs. destruct part as [| c part]; [discriminate Hp |].
  destruct (split_one c part Hs) as [Hc _].
  exists c. destruct rest as [| part' rest].
  - exists part. split; [reflexivity | exact Hc].
  - exists (part ++ "/" ++ join (part' :: rest)). split; [reflexivity | exact Hc].
Qed.

Lemma Path_normal (s : string) : normal (Path s).
Proof.
  split.
  - unfold Path, splitroot. simpl.
    destruct s as [| c1 [| c2 [| c3 s]]]; auto;
      repeat match goal with
             | |- context [match ?c with Ascii _ _ _ _ _ _ _ _ => _ end] => destruct c
             | |- context [if ?b then _ else _] => destruct b
             end; auto.
  - simpl. generalize (split_parts s). induction 1 as [| part l Hpart _ IH]; simpl.
    + constructor.
    + destruct (is_part part) eqn:Hp; [constructor; [split; assumption | exact IH] | exact IH].
Qed.

Lemma parent_normal (p : PosixPath) : normal p -> normal (parent p).
Proof.
  intros [Hr Hp]. split; [exact Hr |]. simpl.
  induction Hp as [| part l H Hl IH]; simpl; [constructor |].
  destruct l; [constructor | constructor; [exact H | exact IH]].
Qed.

Lemma joinpath_normal (p : PosixPath) (s : string) : normal p -> normal (joinpath p s).
Proof.
  intros [Hr Hp]. unfold joinpath.
  assert (Happ : normal {| root := root p; parts := (parts p ++ parts (Path s))%list |}).
  { split; [exact Hr |]. simpl. apply Forall_app. split; [exact Hp |].
    apply (Path_normal s). }
  destruct s as [| c s]; [exact Happ |].
  repeat match goal with
         | |- context [match ?c with Ascii _ _ _ _ _ _ _ _ => _ end] => destruct c
         | |- context [if ?b then _ else _] => destruct b
         end; try exact Happ; apply Path_normal.
Qed.

(** [Path(str(p)) == p] *)
Lemma Path_str (p : PosixPath) : normal p -> Path (str p) = p.
Proof.
  destruct p as [r l]. intros [Hr Hl]. simpl in Hr, Hl.
  assert (Hhead : forall part rest, l = part :: rest ->
            exists c s, join l = String c s /\ Ascii.eqb c "/" = false).
  { intros part rest ->. inversion Hl as [| ? ? [Hp Hs] _]; subst.
    apply join_head; assumption. }
  assert (Hsplit : forall part rest, l = part :: rest -> split (join l) = l).
  { intros part rest ->. apply split_join, parts_split, Hl. }
  pose proof (filter_parts l Hl) as Hfilter.
  unfold Path, str. cbn [root parts].
  destruct Hr as [-> | [-> | ->]]; destruct l as [| part rest].
  - reflexivity.
  - destruct (Hhead part rest eq_refl) as [c [s [Hj Hc]]].
    change ("" ++ join (part :: rest)) with (join (part :: rest)).
    rewrite (Hsplit part rest eq_refl), Hfilter, Hj.
    f_equal. unfold splitroot.
    destruct c as [[] [] [] [] [] [] [] []]; try reflexivity. discriminate Hc.
  - reflexivity.
  - destruct (Hhead part rest eq_refl) as [c [s [Hj Hc]]].
    change ("/" ++ join (part :: rest)) with (String "/" (join (part :: rest))).
    change (split (String "/" (join (part :: rest))))
      with ("" :: split (join (part :: rest))).
    rewrite (Hsplit part rest eq_refl).
    change (filter is_part ("" :: part :: rest)) with (filter is_part (part :: rest)).
    rewrite Hfilter, Hj. f_equal. unfold splitroot.
    destruct c as [[] [] [] [] [] [] [] []]; try reflexivity. discriminate Hc.
  - reflexivity.
  - destruct (Hhead part rest eq_refl) as [c [s [Hj Hc]]].
    change ("//" ++ join (part :: rest))
      with (String "/" (String "/" (join (part :: rest)))).
    change (split (String "/" (String "/" (join (part :: rest)))))
      with ("" :: "" :: split (join (part :: rest))).
    rewrite (Hsplit part rest eq_refl).
    change (filter is_part ("" :: "" :: part :: rest)) with (filter is_part (part :: rest)).
    rewrite Hfilter, Hj. f_equal. unfold splitroot.
    destruct c as [[] [] [] [] [] [] [] []]; try reflexivity. discriminate Hc.
Qed.

Lemma policy_path_normal (__file__ : string) : normal (server.policy_path __file__).
Proof.
  unfold server.policy_path.
  do 2 apply joinpath_normal. do 3 apply parent_normal. apply Path_normal.
Qed.

(** [PolicyEngine(str(policy_path))] of server.py looks for the file at
    [policy_path], wherever the module is. *)
Lemma policy_path_round_trip (__file__ : string) :
  Path (str (server.policy_path __file__)) = server.policy_path __file__.
Proof. apply Path_str, policy_path_normal. Qed.

End Paths.

Section Membership.

Lemma append_empty (s : string) : s ++ "" = s.
Proof. induction s as [| c s IH]; simpl; [| rewrite IH]; reflexivity. Qed.

Lemma eqb_str_in (x : string) (l : list value) :
  In (VStr x) l -> existsb (eq_str x) l = true.
Proof.
  intros H. apply existsb_exists. exists (VStr x). split; [exact H |].
  simpl. apply String.eqb_refl.
Qed.

Lemma eqb_str_not_in (x : string) (l : list value) :
  ~ In (VStr x) l -> existsb (eq_str x) l = false.
Proof.
  intros H. destruct (existsb (eq_str x) l) eqn:E; [| reflexivity].
  apply existsb_exists in E. destruct E as [v [Hin Hv]].
  destruct v; simpl in Hv; try discriminate.
  apply String.eqb_eq in Hv. subst. contradiction.
Qed.

End Membership.

Section Decision.

Import policy_engine.

Variable self : PolicyEngine.
Variable tool_name : string.
Variables args context : option dict.

(** The decision, step by step, in terms of what the [in] tests give. *)
Lemma validate_global (always_blocked : value) :
  subscript2 (policy self) "global_rules" "always_blocked" = Ok always_blocked ->
  contains tool_name always_blocked = Ok true ->
  validate tool_name args context self
  = (Raise (PolicyViolationError
              [Lit "Tool '"; Lit tool_name;
               Lit "' is globally blocked and can never be executed"]
              tool_name (current_mode self)
              "Globally blocked - destructive operation"), self).
Proof.
  intros Hg Hin. unfold validate. run.
  rewrite Hg, Hin. reflexivity.
Qed.

Lemma validate_mode_blocked (always_blocked mode_policy allowed blocked rationale : value) :
  subscript2 (policy self) "global_rules" "always_blocked" = Ok always_blocked ->
  contains tool_name always_blocked = Ok false ->
  subscript2 (policy self) "modes" (current_mode self) = Ok mode_policy ->
  subscript mode_policy "allowed_tools" = Ok allowed ->
  subscript mode_policy "blocked_tools" = Ok blocked ->
  contains tool_name blocked = Ok true ->
  subscript mode_policy "rationale" = Ok rationale ->
  validate tool_name args context self
  = (Raise (PolicyViolationError
              [Lit "Tool '"; Lit tool_name; Lit "' is blocked in "; Lit (current_mode self);
               Lit " mode. "; Lit "Rationale: "; Str rationale]
              tool_name (current_mode self)
              ("Blocked in " ++ current_mode self ++ " mode")), self).
Proof.
  intros Hg Hin Hm Ha Hb Hbl Hr. unfold validate. run.
  rewrite Hg, Hin, Hm, Ha, Hb, Hbl, Hr. reflexivity.
Qed.

Lemma validate_not_allowed (always_blocked mode_policy allowed blocked : value) :
  subscript2 (policy self) "global_rules" "always_blocked" = Ok always_blocked ->
  contains tool_name always_blocked = Ok false ->
  subscript2 (policy self) "modes" (current_mode self) = Ok mode_policy ->
  subscript mode_policy "allowed_tools" = Ok allowed ->
  subscript mode_policy "blocked_tools" = Ok blocked ->
  contains tool_name blocked = Ok false ->
  contains tool_name allowed = Ok false ->
  validate tool_name args context self
  = (Raise (PolicyViolationError
              [Lit "Tool '"; Lit tool_name; Lit "' is not in the allowed list for ";
               Lit (current_mode self); Lit " mode"]
              tool_name (current_mode self)
              ("Not whitelisted for " ++ current_mode self ++ " mode")), self).
Proof.
  intros Hg Hin Hm Ha Hb Hbl Hal. unfold validate. run.
  rewrite Hg, Hin, Hm, Ha, Hb, Hbl, Hal. reflexivity.
Qed.

Lemma validate_allowed (always_blocked mode_policy allowed blocked : value) :
  subscript2 (policy self) "global_rules" "always_blocked" = Ok always_blocked ->
  contains tool_name always_blocked = Ok false ->
  subscript2 (policy self) "modes" (current_mode self) = Ok mode_policy ->
  subscript mode_policy "allowed_tools" = Ok allowed ->
  subscript mode_policy "blocked_tools" = Ok blocked ->
  contains tool_name blocked = Ok false ->
  contains tool_name allowed = Ok true ->
  validate tool_name args context self = (Ok true, self).
Proof.
  intros Hg Hin Hm Ha Hb Hbl Hal. unfold validate. run.
  rewrite Hg, Hin, Hm, Ha, Hb, Hbl, Hal. reflexivity.
Qed.

(** [validate] leaves the engine as it found it, whatever it answers. *)
Lemma validate_reads_only :
  snd (validate tool_name args context self) = self.
Proof.
  unfold validate. run. by_cases_on_evaluation.
Qed.

End Decision.

Section Decision_claims.

Import policy_engine.

(** [validate] answers as [decision] does on the policy, the mode and the
    tool, and leaves the engine alone: neither [args], [context] nor any
    other attribute of the engine has a part in the answer. *)
Lemma validate_decision (self : PolicyEngine) (tool_name : string) (args context : option dict) :
  validate tool_name args context self
  = (decision (policy self) (current_mode self) tool_name, self).
Proof.
  unfold decision, validate. run. by_cases_on_evaluation.
Qed.

(** C1.  A tool listed in [global_rules.always_blocked] is denied with the
    reason "Globally blocked - destructive operation", whatever the current
    mode is and whatever the modes of the policy say, since nothing of the
    modes is read before the global list is checked: the hypotheses leave
    the [modes] of the policy free, so they may allow the tool, or be
    missing. *)
Theorem always_blocked_denied_in_every_mode
  (self : PolicyEngine) (tool_name : string) (args context : option dict)
  (always_blocked : list value) :
  subscript2 (policy self) "global_rules" "always_blocked" = Ok (VList always_blocked) ->
  In (VStr tool_name) always_blocked ->
  validate tool_name args context self
  = (Raise (PolicyViolationError
              [Lit "Tool '"; Lit tool_name;
               Lit "' is globally blocked and can never be executed"]
              tool_name (current_mode self)
              "Globally blocked - destructive operation"), self).
Proof.
  intros Hg Hin. apply validate_global with (always_blocked := VList always_blocked).
  - exact Hg.
  - simpl. rewrite (eqb_str_in _ _ Hin). reflexivity.
Qed.

(** C1, witness: [delete_database] stays denied in a mode whose
    [allowed_tools] lists it. *)
Lemma always_blocked_denied_in_every_mode_witness :
  validate "delete_database" None None (lifecycle.engine_with lifecycle.overlapping "EMERGENCY")
  = (Raise (PolicyViolationError
              [Lit "Tool '"; Lit "delete_database";
               Lit "' is globally blocked and can never be executed"]
              "delete_database" "EMERGENCY"
              "Globally blocked - destructive operation"),
     lifecycle.engine_with lifecycle.overlapping "EMERGENCY").
Proof.
  apply (always_blocked_denied_in_every_mode
           (lifecycle.engine_with lifecycle.overlapping "EMERGENCY")
           "delete_database" None None [VStr "delete_database"]).
  - reflexivity.
  - simpl. left. reflexivity.
Defined.

(** C3.  A tool that is not always blocked and is listed in the
    [blocked_tools] of the current mode is denied with the reason
    "Blocked in <mode> mode" and a message that carries the mode's
    rationale, whatever the mode's [allowed_tools] is. *)
Theorem blocked_in_mode_wins_over_allowed
  (self : PolicyEngine) (tool_name : string) (args context : option dict)
  (always_blocked blocked_tools : list value) (rules : dict)
  (allowed_tools rationale : value) :
  subscript2 (policy self) "global_rules" "always_blocked" = Ok (VList always_blocked) ->
  ~ In (VStr tool_name) always_blocked ->
  subscript2 (policy self) "modes" (current_mode self) = Ok (VDict rules) ->
  assoc "allowed_tools" rules = Some allowed_tools ->
  assoc "blocked_tools" rules = Some (VList blocked_tools) ->
  assoc "rationale" rules = Some rationale ->
  In (VStr tool_name) blocked_tools ->
  validate tool_name args context self
  = (Raise (PolicyViolationError
              [Lit "Tool '"; Lit tool_name; Lit "' is blocked in "; Lit (current_mode self);
               Lit " mode. "; Lit "Rationale: "; Str rationale]
              tool_name (current_mode self)
              ("Blocked in " ++ current_mode self ++ " mode")), self).
Proof.
  intros Hg Hnin Hm Ha Hb Hr Hin.
  apply validate_mode_blocked
    with (always_blocked := VList always_blocked) (mode_policy := VDict rules)
         (allowed := allowed_tools) (blocked := VList blocked_tools).
  - exact Hg.
  - simpl. rewrite (eqb_str_not_in _ _ Hnin). reflexivity.
  - exact Hm.
  - simpl. unfold getitem. rewrite Ha. reflexivity.
  - simpl. unfold getitem. rewrite Hb. reflexivity.
  - simpl. rewrite (eqb_str_in _ _ Hin). reflexivity.
  - simpl. unfold getitem. rewrite Hr. reflexivity.
Qed.

(** C3, witness: [restart_service] is both allowed and blocked in the
    mode. *)
Lemma blocked_in_mode_wins_over_allowed_witness :
  validate "restart_service" None None (lifecycle.engine_with lifecycle.overlapping "EMERGENCY")
  = (Raise (PolicyViolationError
              [Lit "Tool '"; Lit "restart_service"; Lit "' is blocked in "; Lit "EMERGENCY";
               Lit " mode. "; Lit "Rationale: ";
               Str (VStr "Corrective actions during an incident")]
              "restart_service" "EMERGENCY"
              "Blocked in EMERGENCY mode"),
     lifecycle.engine_with lifecycle.overlapping "EMERGENCY").
Proof.
  apply (blocked_in_mode_wins_over_allowed
           (lifecycle.engine_with lifecycle.overlapping "EMERGENCY")
           "restart_service" None None
           [VStr "delete_database"] [VStr "restart_service"]
           lifecycle.overlapping_rules
           (ops_policy.strs ["delete_database"; "restart_service"; "reboot_rack"])
           (VStr "Corrective actions during an incident")).
  - reflexivity.
  - simpl. intros [H | []]. discriminate H.
  - reflexivity.
  - reflexivity.
  - reflexivity.
  - reflexivity.
  - simpl. left. reflexivity.
Defined.

(** C4.  A tool that is in none of [always_blocked], the mode's
    [blocked_tools] and the mode's [allowed_tools] is denied with the reason
    "Not whitelisted for <mode> mode". *)
Theorem not_whitelisted_is_denied
  (self : PolicyEngine) (tool_name : string) (args context : option dict)
  (always_blocked blocked_tools allowed_tools : list value) (rules : dict) :
  subscript2 (policy self) "global_rules" "always_blocked" = Ok (VList always_blocked) ->
  ~ In (VStr tool_name) always_blocked ->
  subscript2 (policy self) "modes" (current_mode self) = Ok (VDict rules) ->
  assoc "allowed_tools" rules = Some (VList allowed_tools) ->
  assoc "blocked_tools" rules = Some (VList blocked_tools) ->
  ~ In (VStr tool_name) blocked_tools ->
  ~ In (VStr tool_name) allowed_tools ->
  validate tool_name args context self
  = (Raise (PolicyViolationError
              [Lit "Tool '"; Lit tool_name; Lit "' is not in the allowed list for ";
               Lit (current_mode self); Lit " mode"]
              tool_name (current_mode self)
              ("Not whitelisted for " ++ current_mode self ++ " mode")), self).
Proof.
  intros Hg Hnin Hm Ha Hb Hnb Hna.
  apply validate_not_allowed
    with (always_blocked := VList always_blocked) (mode_policy := VDict rules)
         (allowed := VList allowed_tools) (blocked := VList blocked_tools).
  - exact Hg.
  - simpl. rewrite (eqb_str_not_in _ _ Hnin). reflexivity.
  - exact Hm.
  - simpl. unfold getitem. rewrite Ha. reflexivity.
  - simpl. unfold getitem. rewrite Hb. reflexivity.
  - simpl. rewrite (eqb_str_not_in _ _ Hnb). reflexivity.
  - simpl. rewrite (eqb_str_not_in _ _ Hna). reflexivity.
Qed.

(** C4, witness: scenario C of the specification, an unregistered tool in
    NORMAL mode. *)
Lemma not_whitelisted_is_denied_witness :
  validate "unregistered_tool" None None (ops_policy.engine_in "NORMAL")
  = (Raise (PolicyViolationError
              [Lit "Tool '"; Lit "unregistered_tool"; Lit "' is not in the allowed list for ";
               Lit "NORMAL"; Lit " mode"]
              "unregistered_tool" "NORMAL"
              "Not whitelisted for NORMAL mode"), ops_policy.engine_in "NORMAL").
Proof.
  apply (not_whitelisted_is_denied
           (ops_policy.engine_in "NORMAL") "unregistered_tool" None None
           [VStr "delete_database"]
           [VStr "restart_service"; VStr "scale_fleet"]
           [VStr "get_service_status"; VStr "read_logs"; VStr "list_services"]
           ops_policy.normal_rules).
  - reflexivity.
  - simpl. intros [H | []]. discriminate H.
  - reflexivity.
  - reflexivity.
  - reflexivity.
  - simpl. intros [H | [H | []]]; discriminate H.
  - simpl. intros [H | [H | [H | []]]]; discriminate H.
Defined.

End Decision_claims.

Section Decision_function.

Import policy_engine.

(** C9.  Two calls of [validate] for the same tool on engines with the same
    policy and the same current mode give the same answer (the same
    [True], or the same exception with the same reason), whatever [args]
    and [context] each is given; the call leaves the engine as it was, so
    that the call repeated gives the same answer again. *)
Theorem decision_depends_on_tool_policy_and_mode_only
  (self1 self2 : PolicyEngine) (tool_name : string)
  (args1 context1 args2 context2 : option dict) :
  policy self1 = policy self2 ->
  current_mode self1 = current_mode self2 ->
  fst (validate tool_name args1 context1 self1)
  = fst (validate tool_name args2 context2 self2)
  /\ snd (validate tool_name args1 context1 self1) = self1
  /\ validate tool_name args1 context1 (snd (validate tool_name args1 context1 self1))
     = validate tool_name args1 context1 self1.
Proof.
  intros Hp Hm. rewrite !validate_decision. simpl.
  rewrite Hp, Hm. repeat split.
Qed.

(** C9, witness: a call without [args] and [context] and a call with both,
    on engines that differ in their [policy_path]. *)
Lemma decision_depends_on_tool_policy_and_mode_only_witness :
  fst (validate "restart_service" None None (ops_policy.engine_in "NORMAL"))
  = fst (validate "restart_service"
           (Some [("service_name", VStr "cache")]) (Some [("caller", VStr "agent")])
           {| policy_path := pathlib.Path "elsewhere.json";
              policy := ops_policy.document;
              current_mode := "NORMAL" |}).
Proof.
  apply (decision_depends_on_tool_policy_and_mode_only
           (ops_policy.engine_in "NORMAL")
           {| policy_path := pathlib.Path "elsewhere.json";
              policy := ops_policy.document;
              current_mode := "NORMAL" |}
           "restart_service" None None
           (Some [("service_name", VStr "cache")]) (Some [("caller", VStr "agent")])).
  - reflexivity.
  - reflexivity.
Defined.

(** Scenarios A and B of the specification, on the demonstration policy. *)
Example scenario_A_normal :
  fst (validate "restart_service" None None (ops_policy.engine_in "NORMAL"))
  = Raise (PolicyViolationError
             [Lit "Tool '"; Lit "restart_service"; Lit "' is blocked in "; Lit "NORMAL";
              Lit " mode. "; Lit "Rationale: "; Str (VStr "Read-only while healthy")]
             "restart_service" "NORMAL"
             "Blocked in NORMAL mode").
Proof. reflexivity. Qed.

Example scenario_A_emergency :
  validate "restart_service" None None
    (snd (set_mode "EMERGENCY" (ops_policy.engine_in "NORMAL")))
  = (Ok true, ops_policy.engine_in "EMERGENCY").
Proof. reflexivity. Qed.

Example scenario_B :
  fst (validate "delete_database" None None (ops_policy.engine_in "NORMAL"))
  = Raise (PolicyViolationError
             [Lit "Tool '"; Lit "delete_database";
              Lit "' is globally blocked and can never be executed"]
             "delete_database" "NORMAL"
             "Globally blocked - destructive operation")
  /\ fst (validate "delete_database" None None (ops_policy.engine_in "EMERGENCY"))
     = Raise (PolicyViolationError
                [Lit "Tool '"; Lit "delete_database";
                 Lit "' is globally blocked and can never be executed"]
                "delete_database" "EMERGENCY"
                "Globally blocked - destructive operation").
Proof. split; reflexivity. Qed.

End Decision_function.

(* ===================================================================== *)
(** * Properties of the mode controller and of the loader *)
(* ===================================================================== *)

Section Mode_controller.

Import policy_engine lifecycle.

Lemma mem_assoc {V : Type} (k : string) (d : list (string * V)) :
  mem k d = true <-> exists v, assoc k d = Some v.
Proof.
  unfold mem. destruct (assoc k d) as [v |]; split.
  - intros _. exists v. reflexivity.
  - reflexivity.
  - discriminate.
  - intros [v H]. discriminate H.
Qed.

(** An undefined mode: [ValueError], and the engine is left as it was. *)
Lemma set_mode_undefined (self : PolicyEngine) (mode : string) (modes : dict) :
  subscript (policy self) "modes" = Ok (VDict modes) ->
  mem mode modes = false ->
  set_mode mode self
  = (Raise (ValueError [Lit "Invalid mode: "; Lit mode; Lit ". Available: ";
                        Str (VList (map VStr (keys modes)))]),
     self).
Proof.
  intros Hms Hm. unfold set_mode. run.
  rewrite Hms. simpl. rewrite Hm. simpl. reflexivity.
Qed.

(** A defined mode becomes the current mode, even when the call goes on to
    raise for want of a description. *)
Lemma set_mode_defined (self : PolicyEngine) (mode : string) (modes : dict) :
  subscript (policy self) "modes" = Ok (VDict modes) ->
  mem mode modes = true ->
  snd (set_mode mode self) = with_current_mode mode self.
Proof.
  intros Hms Hm. unfold set_mode, subscript2. run.
  rewrite Hms. simpl. rewrite Hm. simpl.
  destruct (getitem modes mode) as [rules | e]; simpl; [| reflexivity].
  destruct (subscript rules "description"); reflexivity.
Qed.

(** The call returns normally when the rules of the mode are a dict with a
    description. *)
Lemma set_mode_returns (self : PolicyEngine) (mode : string) (modes rules : dict) (d : value) :
  subscript (policy self) "modes" = Ok (VDict modes) ->
  assoc mode modes = Some (VDict rules) ->
  assoc "description" rules = Some d ->
  set_mode mode self = (Ok tt, with_current_mode mode self).
Proof.
  intros Hms Hm Hd. unfold set_mode, subscript2. run.
  rewrite Hms. simpl. unfold mem, getitem. rewrite Hm. simpl.
  unfold getitem. rewrite Hd. reflexivity.
Qed.

(** Whatever the policy, [set_mode] leaves the engine as it was or makes
    [mode] the current mode, and it never touches the policy. *)
Lemma set_mode_effect (self : PolicyEngine) (mode : string) :
  snd (set_mode mode self) = self \/ snd (set_mode mode self) = with_current_mode mode self.
Proof.
  unfold set_mode. run.
  destruct (subscript (policy self) "modes") as [modes | e]; simpl; [| left; reflexivity].
  destruct (contains mode modes) as [[|] | e]; simpl; [| | left; reflexivity].
  - right. destruct (subscript2 (policy self) "modes" mode) as [rules | e]; simpl;
      [| reflexivity].
    destruct (subscript rules "description"); reflexivity.
  - left. destruct (list_keys modes); reflexivity.
Qed.

(** C5.  On an engine whose policy has a dict of modes: for a mode that is
    not a key of it, [set_mode] raises [ValueError] and leaves the engine
    as it was, so that [get_current_mode] and [validate] called afterwards
    answer as they did before; for a mode that is a key of it, the current
    mode after the call is that mode. *)
Theorem set_mode_rejects_undefined_and_sets_defined
  (self : PolicyEngine) (mode : string) (modes : dict) :
  subscript (policy self) "modes" = Ok (VDict modes) ->
  (mem mode modes = false ->
     set_mode mode self
     = (Raise (ValueError [Lit "Invalid mode: "; Lit mode; Lit ". Available: ";
                           Str (VList (map VStr (keys modes)))]),
        self)
     /\ get_current_mode (snd (set_mode mode self)) = get_current_mode self
     /\ forall tool_name args context,
          validate tool_name args context (snd (set_mode mode self))
          = validate tool_name args context self)
  /\ (mem mode modes = true ->
        current_mode (snd (set_mode mode self)) = mode
        /\ fst (get_current_mode (snd (set_mode mode self))) = Ok mode
        /\ policy (snd (set_mode mode self)) = policy self).
Proof.
  intros Hms. split.
  - intros Hm. rewrite (set_mode_undefined self mode modes Hms Hm). simpl.
    repeat split.
  - intros Hm. rewrite (set_mode_defined self mode modes Hms Hm). simpl.
    repeat split.
Qed.

(** C5, witness: on the demonstration policy in NORMAL mode, "MAINTENANCE"
    is refused and the mode stays NORMAL, "EMERGENCY" is set. *)
Lemma set_mode_rejects_undefined_and_sets_defined_witness :
  set_mode "MAINTENANCE" (ops_policy.engine_in "NORMAL")
  = (Raise (ValueError [Lit "Invalid mode: "; Lit "MAINTENANCE"; Lit ". Available: ";
                        Str (VList [VStr "NORMAL"; VStr "EMERGENCY"])]),
     ops_policy.engine_in "NORMAL")
  /\ current_mode (snd (set_mode "EMERGENCY" (ops_policy.engine_in "NORMAL"))) = "EMERGENCY".
Proof.
  split.
  - apply (set_mode_rejects_undefined_and_sets_defined
             (ops_policy.engine_in "NORMAL") "MAINTENANCE" ops_policy.modes eq_refl).
    reflexivity.
  - apply (set_mode_rejects_undefined_and_sets_defined
             (ops_policy.engine_in "NORMAL") "EMERGENCY" ops_policy.modes eq_refl).
    reflexivity.
Defined.

End Mode_controller.

Section Reachable_engines.

Import policy_engine lifecycle.

(** The constructor sets the mode to "NORMAL" whatever the file holds, and
    keeps the document as [json.load] returned it. *)
Lemma init_sets_NORMAL (fs : filesystem) (path : string) (self : PolicyEngine) :
  __init__ fs path = Ok self ->
  current_mode self = "NORMAL"
  /\ fs (pathlib.str (pathlib.Path path)) = Some (Parses_to (policy self)).
Proof.
  unfold __init__, _load_policy. intros H.
  destruct (fs (pathlib.str (pathlib.Path path))) as [[e | document] |];
    simpl in H; try discriminate.
  destruct document as [| | | | | | d]; simpl in H; try discriminate.
  destruct (assoc "policy_name" d), (assoc "version" d); simpl in H;
    injection H as <-; simpl; split; reflexivity.
Qed.

Lemma getters_read_only (self : PolicyEngine) :
  snd (get_current_mode self) = self
  /\ snd (get_allowed_tools self) = self
  /\ snd (get_blocked_tools self) = self.
Proof.
  unfold get_current_mode, get_allowed_tools, get_blocked_tools. run.
  destruct (subscript2 (policy self) "modes" (current_mode self)) as [rules | e]; simpl.
  - destruct (subscript rules "allowed_tools"), (subscript rules "blocked_tools");
      repeat split.
  - repeat split.
Qed.

(** No call changes the policy. *)
Lemma after_keeps_policy (c : call) (self : PolicyEngine) :
  policy (after c self) = policy self.
Proof.
  destruct c as [mode | | | | tool_name args context']; simpl.
  - destruct (set_mode_effect self mode) as [-> | ->]; reflexivity.
  - reflexivity.
  - destruct (getters_read_only self) as [_ [-> _]]. reflexivity.
  - destruct (getters_read_only self) as [_ [_ ->]]. reflexivity.
  - rewrite validate_reads_only. reflexivity.
Qed.

(** Every call keeps the current mode among the keys of the modes. *)
Lemma after_keeps_mode_defined (c : call) (self : PolicyEngine) :
  mode_defined self = true -> mode_defined (after c self) = true.
Proof.
  intros Hdef. destruct c as [mode | | | | tool_name args context']; simpl.
  - unfold mode_defined in Hdef.
    destruct (subscript (policy self) "modes") as [[| | | | | | modes] | e] eqn:Hms;
      try discriminate.
    destruct (mem mode modes) eqn:Hm.
    + rewrite (set_mode_defined self mode modes Hms Hm).
      unfold mode_defined. simpl. rewrite Hms. exact Hm.
    + rewrite (set_mode_undefined self mode modes Hms Hm). simpl.
      unfold mode_defined. rewrite Hms. exact Hdef.
  - exact Hdef.
  - destruct (getters_read_only self) as [_ [-> _]]. exact Hdef.
  - destruct (getters_read_only self) as [_ [_ ->]]. exact Hdef.
  - rewrite validate_reads_only. exact Hdef.
Qed.

Lemma reachable_policy (fs : filesystem) (path : string) (self : PolicyEngine) :
  reachable fs path self ->
  fs (pathlib.str (pathlib.Path path)) = Some (Parses_to (policy self)).
Proof.
  induction 1 as [self Hinit | self c Hreach IH].
  - apply (init_sets_NORMAL fs path self Hinit).
  - rewrite after_keeps_policy. exact IH.
Qed.

(** C7, as amended.  The constructor sets the current mode to "NORMAL"
    whatever the policy file holds; every call, [set_mode] among them,
    keeps the current mode a key of the policy's modes once it is one; so,
    when "NORMAL" is a key of the modes of the loaded policy, the current
    mode is a key of the modes in every state the engine reaches. *)
Theorem current_mode_defined_when_NORMAL_is (fs : filesystem) (path : string) :
  (forall self, __init__ fs path = Ok self -> current_mode self = "NORMAL")
  /\ (forall self c, mode_defined self = true -> mode_defined (after c self) = true)
  /\ (forall document modes,
        fs (pathlib.str (pathlib.Path path)) = Some (Parses_to document) ->
        subscript document "modes" = Ok (VDict modes) ->
        mem "NORMAL" modes = true ->
        forall self, reachable fs path self -> mode_defined self = true).
Proof.
  split; [| split].
  - intros self Hinit. apply (init_sets_NORMAL fs path self Hinit).
  - intros self c. apply after_keeps_mode_defined.
  - intros document modes Hfs Hms Hnormal self Hreach.
    induction Hreach as [self Hinit | self c Hreach IH].
    + destruct (init_sets_NORMAL fs path self Hinit) as [Hmode Hpol].
      rewrite Hfs in Hpol. injection Hpol as Hpol.
      unfold mode_defined. rewrite <- Hpol, Hms, Hmode. exact Hnormal.
    + apply after_keeps_mode_defined. exact IH.
Qed.

(** C7, witness: the demonstration policy has a NORMAL mode; after two
    changes of mode, one of them refused, the current mode is defined. *)
Lemma current_mode_defined_when_NORMAL_is_witness :
  mode_defined
    (after (Set_mode "MAINTENANCE")
       (after (Set_mode "EMERGENCY") (ops_policy.engine_in "NORMAL")))
  = true.
Proof.
  apply (current_mode_defined_when_NORMAL_is ops_policy.fs
           (pathlib.str ops_policy.path))
    with (document := ops_policy.document) (modes := ops_policy.modes).
  - reflexivity.
  - reflexivity.
  - reflexivity.
  - apply reach_call. apply reach_call. apply reach_init. reflexivity.
Defined.

(** C7, counterexample: a policy whose only mode is EMERGENCY loads, and
    the engine constructed from it is in the mode "NORMAL", which is no key
    of its modes. *)
Lemma current_mode_undefined_at_construction :
  reachable (holding emergency_only) (pathlib.str ops_policy.path)
    (engine_with emergency_only "NORMAL")
  /\ mode_defined (engine_with emergency_only "NORMAL") = false.
Proof.
  split.
  - apply reach_init. reflexivity.
  - reflexivity.
Qed.

(** In that state a tool that is not always blocked gets no decision: the
    lookup of the mode raises [KeyError]. *)
Example undefined_mode_gives_no_decision :
  validate "restart_service" None None (engine_with emergency_only "NORMAL")
  = (Raise (KeyError (VStr "NORMAL")), engine_with emergency_only "NORMAL").
Proof. reflexivity. Qed.

End Reachable_engines.

Section Loader.

Import policy_engine lifecycle.

(** The message names the path as [pathlib] prints it, not the string the
    caller gave. *)
Lemma load_missing (fs : filesystem) (path : string) :
  fs (pathlib.str (pathlib.Path path)) = None ->
  __init__ fs path
  = Raise (FileNotFoundError
             [Lit "Policy file not found: "; Lit (pathlib.str (pathlib.Path path))]).
Proof. intros H. unfold __init__, _load_policy. rewrite H. reflexivity. Qed.

(** What [open] or [json.load] raises leaves the constructor as it is. *)
Lemma load_fails (fs : filesystem) (path : string) (e : exn) :
  fs (pathlib.str (pathlib.Path path)) = Some (Fails e) -> __init__ fs path = Raise e.
Proof. intros H. unfold __init__, _load_policy. rewrite H. reflexivity. Qed.

(** A dict is loaded whatever its keys. *)
Lemma load_dict (fs : filesystem) (path : string) (d : dict) :
  fs (pathlib.str (pathlib.Path path)) = Some (Parses_to (VDict d)) ->
  __init__ fs path
  = Ok {| policy_path := pathlib.Path path; policy := VDict d; current_mode := "NORMAL" |}.
Proof.
  intros H. unfold __init__, _load_policy. rewrite H. simpl.
  destruct (assoc "policy_name" d), (assoc "version" d); reflexivity.
Qed.

(** A document that is no dict has no [get]. *)
Lemma load_not_a_dict (fs : filesystem) (path : string) (document : value) :
  fs (pathlib.str (pathlib.Path path)) = Some (Parses_to document) ->
  (forall d, document <> VDict d) ->
  __init__ fs path = Raise AttributeError.
Proof.
  intros H Hd. unfold __init__, _load_policy. rewrite H.
  destruct document; try reflexivity. exfalso. apply (Hd d). reflexivity.
Qed.

(** The server module does not come up when the engine does not. *)
Lemma startup_fails (__file__ : string) (fs : filesystem) (clock : tools.Clock) (e : exn) :
  __init__ fs (pathlib.str (server.policy_path __file__)) = Raise e ->
  server.startup __file__ fs clock = Raise e.
Proof. intros H. unfold server.startup. rewrite H. reflexivity. Qed.

(** Without the policy file the server module does not come up; the
    message names the path the module computed. *)
Lemma startup_missing (__file__ : string) (fs : filesystem) (clock : tools.Clock) :
  fs (pathlib.str (server.policy_path __file__)) = None ->
  server.startup __file__ fs clock
  = Raise (FileNotFoundError
             [Lit "Policy file not found: ";
              Lit (pathlib.str (server.policy_path __file__))]).
Proof.
  intros H. apply startup_fails.
  rewrite <- (policy_path_round_trip __file__) at 2.
  apply load_missing. rewrite policy_path_round_trip. exact H.
Qed.

(** A key the document lacks is missed when it is first read. *)
Lemma validate_without_global_rules
  (self : PolicyEngine) (d : dict) (tool_name : string) (args context : option dict) :
  policy self = VDict d ->
  assoc "global_rules" d = None ->
  validate tool_name args context self = (Raise (KeyError (VStr "global_rules")), self).
Proof.
  intros Hp Hg. unfold validate, subscript2. run.
  rewrite Hp. simpl. unfold getitem. rewrite Hg. reflexivity.
Qed.

(** [validate] reads [modes] once the tool has passed the global list. *)
Lemma validate_without_modes
  (self : PolicyEngine) (d : dict) (tool_name : string) (args context : option dict)
  (always_blocked : value) :
  policy self = VDict d ->
  assoc "modes" d = None ->
  subscript2 (VDict d) "global_rules" "always_blocked" = Ok always_blocked ->
  contains tool_name always_blocked = Ok false ->
  validate tool_name args context self = (Raise (KeyError (VStr "modes")), self).
Proof.
  intros Hp Hm Hg Hin. unfold validate. run.
  rewrite Hp, Hg. simpl. rewrite Hin. simpl.
  unfold subscript2. simpl. unfold getitem. rewrite Hm. reflexivity.
Qed.

Lemma set_mode_without_modes (self : PolicyEngine) (d : dict) (mode : string) :
  policy self = VDict d ->
  assoc "modes" d = None ->
  set_mode mode self = (Raise (KeyError (VStr "modes")), self).
Proof.
  intros Hp Hm. unfold set_mode. run.
  rewrite Hp. simpl. unfold getitem. rewrite Hm. reflexivity.
Qed.

(** C6, as amended.  The constructor looks the file up under the path as
    [pathlib] normalises it.  When the file is missing the load fails with
    [FileNotFoundError], its message naming that path; when [open] or
    [json.load] raises, that exception leaves the constructor; when the
    text parses to something that is no dict the load fails with
    [AttributeError].  When the load fails the server module does not come
    up: there is no engine to serve a request; without the file at the
    path the module computes from its own location, the failure is the
    [FileNotFoundError] that names that path.  A file that parses to a
    dict is loaded whatever its keys; a missing [global_rules] or [modes]
    shows as a [KeyError] of the call that first reads it: [validate] for
    [global_rules], [set_mode] for [modes], and [validate] for [modes] as
    well when the tool is not in the global list. *)
Theorem load_fails_on_missing_or_unparsable_source (fs : filesystem) (path : string) :
  (fs (pathlib.str (pathlib.Path path)) = None ->
     __init__ fs path
     = Raise (FileNotFoundError
                [Lit "Policy file not found: "; Lit (pathlib.str (pathlib.Path path))]))
  /\ (forall e,
        fs (pathlib.str (pathlib.Path path)) = Some (Fails e) -> __init__ fs path = Raise e)
  /\ (forall document,
        fs (pathlib.str (pathlib.Path path)) = Some (Parses_to document) ->
        (forall d, document <> VDict d) ->
        __init__ fs path = Raise AttributeError)
  /\ (forall __file__ clock e,
         __init__ fs (pathlib.str (server.policy_path __file__)) = Raise e ->
         server.startup __file__ fs clock = Raise e)
  /\ (forall __file__ clock,
         fs (pathlib.str (server.policy_path __file__)) = None ->
         server.startup __file__ fs clock
         = Raise (FileNotFoundError
                    [Lit "Policy file not found: ";
                     Lit (pathlib.str (server.policy_path __file__))]))
  /\ (forall d,
         fs (pathlib.str (pathlib.Path path)) = Some (Parses_to (VDict d)) ->
         exists self,
           __init__ fs path = Ok self /\ policy self = VDict d
           /\ (assoc "global_rules" d = None ->
                 forall tool_name args context,
                   validate tool_name args context self
                   = (Raise (KeyError (VStr "global_rules")), self))
           /\ (assoc "modes" d = None ->
                 forall mode,
                   set_mode mode self = (Raise (KeyError (VStr "modes")), self))
           /\ (assoc "modes" d = None ->
                 forall tool_name args context always_blocked,
                   subscript2 (VDict d) "global_rules" "always_blocked" = Ok always_blocked ->
                   contains tool_name always_blocked = Ok false ->
                   validate tool_name args context self
                   = (Raise (KeyError (VStr "modes")), self))).
Proof.
  split; [| split; [| split; [| split; [| split]]]].
  - apply load_missing.
  - intros e. apply load_fails.
  - apply load_not_a_dict.
  - intros __file__ clock e. apply startup_fails.
  - intros __file__ clock. apply startup_missing.
  - intros d Hfs.
    exists {| policy_path := pathlib.Path path; policy := VDict d; current_mode := "NORMAL" |}.
    split; [exact (load_dict fs path d Hfs) |]. split; [reflexivity |].
    split; [| split].
    + intros Hg tool_name args context'.
      apply validate_without_global_rules with (d := d); [reflexivity | exact Hg].
    + intros Hm mode.
      apply set_mode_without_modes with (d := d); [reflexivity | exact Hm].
    + intros Hm tool_name args context' always_blocked Hg Hin.
      apply validate_without_modes with (d := d) (always_blocked := always_blocked);
        [reflexivity | exact Hm | exact Hg | exact Hin].
Qed.

(** C6, witness: with no file at the path the server module computes from
    its own location the engine is not constructed and the server does not
    come up; the message names the normalised path also when the caller's
    string is not normalised. *)
Lemma load_fails_on_missing_or_unparsable_source_witness :
  server.startup ops_policy.module_file (fun _ => None) ops_policy.clock
  = Raise (FileNotFoundError
             [Lit "Policy file not found: "; Lit "/srv/proxi/policies/ops_policy.json"])
  /\ __init__ (fun _ => None) "./policies//ops_policy.json"
     = Raise (FileNotFoundError
                [Lit "Policy file not found: "; Lit "policies/ops_policy.json"])
  /\ __init__ (fun _ => Some (Fails UnicodeDecodeError)) "policies/ops_policy.json"
     = Raise UnicodeDecodeError.
Proof.
  split; [| split].
  - destruct (load_fails_on_missing_or_unparsable_source
                (fun _ => None) (pathlib.str ops_policy.path))
      as [_ [_ [_ [_ [Hstart _]]]]].
    apply (Hstart ops_policy.module_file). reflexivity.
  - destruct (load_fails_on_missing_or_unparsable_source
                (fun _ => None) "./policies//ops_policy.json")
      as [Hmissing _].
    apply Hmissing. reflexivity.
  - destruct (load_fails_on_missing_or_unparsable_source
                (fun _ => Some (Fails UnicodeDecodeError)) "policies/ops_policy.json")
      as [_ [Hfails _]].
    apply Hfails. reflexivity.
Defined.

(** C6, counterexample: a policy file that holds the empty object, with
    neither [modes] nor [global_rules], is loaded, and the server comes
    up. *)
Lemma load_accepts_document_without_required_keys :
  assoc "modes" ([] : dict) = None
  /\ assoc "global_rules" ([] : dict) = None
  /\ __init__ (holding (VDict [])) (pathlib.str ops_policy.path)
     = Ok (engine_with (VDict []) "NORMAL")
  /\ server.startup ops_policy.module_file (holding (VDict [])) ops_policy.clock
     = Ok {| server.engine := engine_with (VDict []) "NORMAL";
             server.cloud := {| tools.cloud_infra := tools.__init__;
                                tools.clock := ops_policy.clock |} |}.
Proof. repeat split. Qed.

End Loader.

(* ===================================================================== *)
(** * Properties of the gateway *)
(* ===================================================================== *)

Section Gateway.

Import policy_engine server.

Lemma server_eta (s : Server) : {| engine := engine s; cloud := cloud s |} = s.
Proof. destruct s. reflexivity. Qed.

(** What [execute_tool] does is decided by the answer of [validate]. *)
Lemma execute_tool_by_decision (request : ToolRequest) (s : Server) :
  execute_tool request s
  = match decision (policy (engine s)) (current_mode (engine s)) (tool_name request) with
    | Raise (PolicyViolationError message tool mode reason) =>
        (Ok (denied message reason), s)
    | Raise e => (Raise e, s)
    | Ok _ =>
        match _execute_tool_function (tool_name request) (arguments request) (cloud s) with
        | (Ok r, w) => (Ok (succeeded r), {| engine := engine s; cloud := w |})
        | (Raise e, w) => (Ok (failed e), {| engine := engine s; cloud := w |})
        end
    end.
Proof.
  unfold execute_tool, on_engine, on_cloud, get_current_mode. run.
  rewrite validate_decision. rewrite !server_eta.
  destruct (decision (policy (engine s)) (current_mode (engine s)) (tool_name request))
    as [b | e]; simpl.
  - destruct (_execute_tool_function (tool_name request) (arguments request) (cloud s))
      as [[r | e] w]; reflexivity.
  - destruct e; reflexivity.
Qed.

(** C2.  When [validate] raises [PolicyViolationError] for the tool of a
    request, [execute_tool] answers with [success] false, [policy_violation]
    true, the message of the exception as [blocked_reason] and its reason in
    [error]; and the state of the server after the call is the state before
    it: no tool function ran, the services, the fleet size and the
    execution log of [cloud_infra] are what they were. *)
Theorem denied_request_reaches_no_tool
  (s : Server) (request : ToolRequest) (message : text) (tool mode reason : string) :
  fst (validate (tool_name request) (Some (arguments request)) (context request) (engine s))
  = Raise (PolicyViolationError message tool mode reason) ->
  execute_tool request s
  = (Ok {| success := false;
           result := None;
           error := Some [Lit "Policy violation: "; Lit reason];
           policy_violation := true;
           blocked_reason := Some message |},
     s).
Proof.
  intros H. rewrite validate_decision in H. simpl in H.
  rewrite execute_tool_by_decision, H. reflexivity.
Qed.

(** C2, witness: [scale_fleet] asked for in NORMAL mode. *)
Lemma denied_request_reaches_no_tool_witness :
  execute_tool {| tool_name := "scale_fleet";
                  arguments := [("count", VInt 50)];
                  context := None |}
    (ops_policy.server_in "NORMAL")
  = (Ok {| success := false;
           result := None;
           error := Some [Lit "Policy violation: "; Lit "Blocked in NORMAL mode"];
           policy_violation := true;
           blocked_reason :=
             Some [Lit "Tool '"; Lit "scale_fleet"; Lit "' is blocked in ";
                   Lit "NORMAL"; Lit " mode. "; Lit "Rationale: ";
                   Str (VStr "Read-only while healthy")] |},
     ops_policy.server_in "NORMAL").
Proof.
  apply (denied_request_reaches_no_tool
           (ops_policy.server_in "NORMAL")
           {| tool_name := "scale_fleet";
              arguments := [("count", VInt 50)];
              context := None |}
           [Lit "Tool '"; Lit "scale_fleet"; Lit "' is blocked in ";
            Lit "NORMAL"; Lit " mode. "; Lit "Rationale: ";
            Str (VStr "Read-only while healthy")]
           "scale_fleet" "NORMAL" "Blocked in NORMAL mode").
  reflexivity.
Defined.

(** C8.  When [validate] returns for the tool of a request and the tool is
    no key of [tool_map], [execute_tool] answers with [success] false and
    the error "Execution error: Unknown tool: <tool>", with
    [policy_violation] false and no [blocked_reason]; nothing has run. *)
Theorem allowed_unknown_tool_is_an_execution_failure
  (s : Server) (request : ToolRequest) (b : bool) :
  fst (validate (tool_name request) (Some (arguments request)) (context request) (engine s))
  = Ok b ->
  assoc (tool_name request) tool_map = None ->
  execute_tool request s
  = (Ok {| success := false;
           result := None;
           error := Some [Lit "Execution error: "; Lit "Unknown tool: ";
                          Lit (tool_name request)];
           policy_violation := false;
           blocked_reason := None |},
     s)
  /\ render [Lit "Execution error: "; Lit "Unknown tool: "; Lit (tool_name request)]
     = Some ("Execution error: Unknown tool: " ++ tool_name request).
Proof.
  intros H Hmap. rewrite validate_decision in H. simpl in H. split.
  - rewrite execute_tool_by_decision, H.
    unfold _execute_tool_function. rewrite Hmap. unfold raise, failed. simpl.
    rewrite server_eta. reflexivity.
  - simpl. rewrite append_empty. reflexivity.
Qed.

(** C8, witness: a policy that allows [reboot_rack], a tool the server has
    no function for. *)
Lemma allowed_unknown_tool_is_an_execution_failure_witness :
  execute_tool {| tool_name := "reboot_rack"; arguments := []; context := None |}
    (lifecycle.server_with lifecycle.overlapping "EMERGENCY")
  = (Ok {| success := false;
           result := None;
           error := Some [Lit "Execution error: "; Lit "Unknown tool: "; Lit "reboot_rack"];
           policy_violation := false;
           blocked_reason := None |},
     lifecycle.server_with lifecycle.overlapping "EMERGENCY").
Proof.
  apply (allowed_unknown_tool_is_an_execution_failure
           (lifecycle.server_with lifecycle.overlapping "EMERGENCY")
           {| tool_name := "reboot_rack"; arguments := []; context := None |}
           true).
  - reflexivity.
  - reflexivity.
Defined.

(** An allowed request for a tool of [tool_map] runs it: the fleet is
    scaled and the call is logged. *)
Example allowed_request_runs_the_tool :
  let s' := snd (execute_tool {| tool_name := "scale_fleet";
                                 arguments := [("count", VInt 5)];
                                 context := None |}
                   (ops_policy.server_in "EMERGENCY")) in
  tools.fleet_size (tools.cloud_infra (cloud s')) = VInt 5
  /\ length (tools.execution_log (tools.cloud_infra (cloud s'))) = 1%nat.
Proof. split; reflexivity. Qed.

End Gateway.

(* ===================================================================== *)
(** * Properties of [scale_fleet] *)
(* ===================================================================== *)

Section Scale_fleet.

Import tools.

(** Whatever [count] is, a number or not, in range or not, the call logs
    itself once and leaves the services alone. *)
Lemma scale_fleet_frame (count : value) (s : State) :
  services (cloud_infra (snd (scale_fleet count s))) = services (cloud_infra s)
  /\ execution_log (cloud_infra (snd (scale_fleet count s)))
     = (execution_log (cloud_infra s)
        ++ [log_entry (reading (clock s) (reads (clock s))) "scale_fleet"
              [("target_count", count)]])%list.
Proof.
  unfold scale_fleet, _log_action, update, now_isoformat, self. run.
  destruct (lt_int count 1) as [[|] | e]; simpl; [split; reflexivity | | split; reflexivity].
  destruct (gt_int count 100) as [[|] | e]; simpl; split; reflexivity.
Qed.

(** The answer and the fleet size, by what the two comparisons give. *)
Lemma scale_fleet_too_small (count : value) (s : State) :
  lt_int count 1 = Ok true ->
  fst (scale_fleet count s)
  = Ok [("status", str_ "error"); ("message", str_ "Fleet size must be at least 1")]
  /\ fleet_size (cloud_infra (snd (scale_fleet count s))) = fleet_size (cloud_infra s).
Proof.
  intros H.
  unfold scale_fleet, _log_action, update, now_isoformat, self. run.
  rewrite H. simpl. split; reflexivity.
Qed.

Lemma scale_fleet_too_large (count : value) (s : State) :
  lt_int count 1 = Ok false ->
  gt_int count 100 = Ok true ->
  fst (scale_fleet count s)
  = Ok [("status", str_ "error");
        ("message", str_ "Fleet size cannot exceed 100 instances")]
  /\ fleet_size (cloud_infra (snd (scale_fleet count s))) = fleet_size (cloud_infra s).
Proof.
  intros H1 H2.
  unfold scale_fleet, _log_action, update, now_isoformat, self. run.
  rewrite H1. simpl. rewrite H2. simpl. split; reflexivity.
Qed.

Lemma scale_fleet_in_range (count : value) (s : State) :
  lt_int count 1 = Ok false ->
  gt_int count 100 = Ok false ->
  fst (scale_fleet count s)
  = Ok [("status", str_ "success");
        ("action", str_ "scale");
        ("old_size", Val (fleet_size (cloud_infra s)));
        ("new_size", Val count);
        ("message", Fmt [Lit "Fleet scaled from "; Str (fleet_size (cloud_infra s));
                         Lit " to "; Str count; Lit " instances"]);
        ("timestamp", str_ (reading (clock s) (S (reads (clock s)))))]
  /\ fleet_size (cloud_infra (snd (scale_fleet count s))) = count.
Proof.
  intros H1 H2.
  unfold scale_fleet, _log_action, update, now_isoformat, self. run.
  rewrite H1. simpl. rewrite H2. simpl. split; reflexivity.
Qed.

(** C10.  For an integer [count]: below 1 or above 100 the answer has the
    status "error" and the fleet size is unchanged; from 1 to 100 the answer
    has the status "success", the old size and the new, and the fleet size
    becomes [count]; in every case the services are unchanged and one entry
    is appended to the execution log. *)
Theorem scale_fleet_checks_the_count (count : Z) (s : State) :
  ((count < 1 \/ 100 < count)%Z ->
     (exists r, fst (scale_fleet (VInt count) s) = Ok r
                /\ assoc "status" r = Some (str_ "error"))
     /\ fleet_size (cloud_infra (snd (scale_fleet (VInt count) s)))
        = fleet_size (cloud_infra s))
  /\ ((1 <= count <= 100)%Z ->
        (exists r, fst (scale_fleet (VInt count) s) = Ok r
                   /\ assoc "status" r = Some (str_ "success")
                   /\ assoc "old_size" r = Some (Val (fleet_size (cloud_infra s)))
                   /\ assoc "new_size" r = Some (Val (VInt count)))
        /\ fleet_size (cloud_infra (snd (scale_fleet (VInt count) s))) = VInt count)
  /\ services (cloud_infra (snd (scale_fleet (VInt count) s))) = services (cloud_infra s)
  /\ execution_log (cloud_infra (snd (scale_fleet (VInt count) s)))
     = (execution_log (cloud_infra s)
        ++ [log_entry (reading (clock s) (reads (clock s))) "scale_fleet"
              [("target_count", VInt count)]])%list.
Proof.
  split; [| split; [| apply scale_fleet_frame]].
  - intros Hout. destruct (Z.ltb_spec count 1) as [Hlt | Hge].
    + destruct (scale_fleet_too_small (VInt count) s) as [Hr Hf].
      { simpl. apply f_equal. apply Z.ltb_lt. exact Hlt. }
      split; [| exact Hf]. eexists. split; [exact Hr | reflexivity].
    + destruct (scale_fleet_too_large (VInt count) s) as [Hr Hf].
      { simpl. apply f_equal. apply Z.ltb_ge. exact Hge. }
      { simpl. apply f_equal. apply Z.gtb_gt. lia. }
      split; [| exact Hf]. eexists. split; [exact Hr | reflexivity].
  - intros [Hlo Hhi]. destruct (scale_fleet_in_range (VInt count) s) as [Hr Hf].
    { simpl. apply f_equal. apply Z.ltb_ge. exact Hlo. }
    { simpl. apply f_equal. rewrite Z.gtb_ltb. apply Z.ltb_ge. exact Hhi. }
    split; [| exact Hf]. eexists. split; [exact Hr |]. repeat split.
Qed.

(** C10, witness: the fleet of three scaled to five, and a count of zero
    refused. *)
Lemma scale_fleet_checks_the_count_witness :
  fleet_size (cloud_infra (snd (scale_fleet (VInt 5)
                                  {| cloud_infra := __init__; clock := ops_policy.clock |})))
  = VInt 5
  /\ fleet_size (cloud_infra (snd (scale_fleet (VInt 0)
                                     {| cloud_infra := __init__; clock := ops_policy.clock |})))
     = VInt 3.
Proof.
  split.
  - apply (scale_fleet_checks_the_count 5
             {| cloud_infra := __init__; clock := ops_policy.clock |}). lia.
  - apply (scale_fleet_checks_the_count 0
             {| cloud_infra := __init__; clock := ops_policy.clock |}). lia.
Defined.

(** A count that is no integer: a half is refused as too small; a str
    raises [TypeError] at the first comparison, after the call is logged. *)
Example scale_fleet_half :
  fst (scale_fleet (VFloat (S754_finite false 1 (-1)))
         {| cloud_infra := __init__; clock := ops_policy.clock |})
  = Ok [("status", str_ "error"); ("message", str_ "Fleet size must be at least 1")].
Proof. reflexivity. Qed.

Example scale_fleet_str :
  let (answer, s) := scale_fleet (VStr "5")
                       {| cloud_infra := __init__; clock := ops_policy.clock |} in
  answer = Raise TypeError
  /\ fleet_size (cloud_infra s) = VInt 3
  /\ length (execution_log (cloud_infra s)) = 1%nat.
Proof. repeat split. Qed.

End Scale_fleet.

(* ===================================================================== *)
(** * Further properties of the policy engine *)
(* ===================================================================== *)

(** Splitting a conjunction into its parts, and nothing else. *)
Ltac conjuncts := repeat match goal with |- _ /\ _ => split end.

Section Engine_coverage.

Import policy_engine lifecycle.

Lemma existsb_eq_str (x : string) (l : list value) :
  existsb (eq_str x) l = true <-> In (VStr x) l.
Proof.
  split.
  - intros H. destruct (existsb (eq_str x) l) eqn:E; [| discriminate].
    apply existsb_exists in E. destruct E as [v [Hin Hv]].
    destruct v; simpl in Hv; try discriminate.
    apply String.eqb_eq in Hv. subst. exact Hin.
  - apply eqb_str_in.
Qed.

Lemma existsb_eq_str_false (x : string) (l : list value) :
  existsb (eq_str x) l = false <-> ~ In (VStr x) l.
Proof.
  split.
  - intros H Hin. apply existsb_eq_str in Hin. congruence.
  - apply eqb_str_not_in.
Qed.

(** What the two getters return is what [validate] reads. *)
Lemma getters_read_the_rules (self : PolicyEngine) (allowed blocked : value) :
  fst (get_allowed_tools self) = Ok allowed ->
  fst (get_blocked_tools self) = Ok blocked ->
  exists mode_policy,
    subscript2 (policy self) "modes" (current_mode self) = Ok mode_policy
    /\ subscript mode_policy "allowed_tools" = Ok allowed
    /\ subscript mode_policy "blocked_tools" = Ok blocked.
Proof.
  unfold get_allowed_tools, get_blocked_tools. run.
  destruct (subscript2 (policy self) "modes" (current_mode self)) as [mode_policy | e];
    simpl; [| discriminate].
  intros Ha Hb. exists mode_policy. repeat split; assumption.
Qed.

(** X1.  When the always-blocked tools, the allowed tools and the blocked
    tools of the current mode are lists, [validate] returns [True] for
    exactly the tools that [get_allowed_tools] reports, [get_blocked_tools]
    does not report and the global list does not hold. *)
Theorem validate_admits_what_the_getters_report
  (self : PolicyEngine) (tool_name : string) (args context : option dict)
  (always_blocked allowed blocked : list value) :
  subscript2 (policy self) "global_rules" "always_blocked" = Ok (VList always_blocked) ->
  fst (get_allowed_tools self) = Ok (VList allowed) ->
  fst (get_blocked_tools self) = Ok (VList blocked) ->
  fst (validate tool_name args context self) = Ok true
  <-> ~ In (VStr tool_name) always_blocked
      /\ ~ In (VStr tool_name) blocked
      /\ In (VStr tool_name) allowed.
Proof.
  intros Hg Ha Hb.
  destruct (getters_read_the_rules self _ _ Ha Hb) as [mode_policy [Hm [Hal Hbl]]].
  rewrite <- !existsb_eq_str_false, <- existsb_eq_str.
  unfold validate. run. rewrite Hg. simpl.
  destruct (existsb (eq_str tool_name) always_blocked); simpl.
  - split; [discriminate | intros [H _]; discriminate H].
  - rewrite Hm. simpl. rewrite Hal. simpl. rewrite Hbl. simpl.
    destruct (existsb (eq_str tool_name) blocked); simpl.
    + destruct (subscript mode_policy "rationale"); simpl;
        (split; [discriminate | intros [_ [H _]]; discriminate H]).
    + destruct (existsb (eq_str tool_name) allowed); simpl.
      * split; auto.
      * split; [discriminate | intros [_ [_ H]]; discriminate H].
Qed.

(** X1, witness: [read_logs] in the NORMAL mode of the demonstration
    policy. *)
Lemma validate_admits_what_the_getters_report_witness :
  fst (validate "read_logs" None None (ops_policy.engine_in "NORMAL")) = Ok true.
Proof.
  apply (validate_admits_what_the_getters_report
           (ops_policy.engine_in "NORMAL") "read_logs" None None
           [VStr "delete_database"]
           [VStr "get_service_status"; VStr "read_logs"; VStr "list_services"]
           [VStr "restart_service"; VStr "scale_fleet"]).
  - reflexivity.
  - reflexivity.
  - reflexivity.
  - split; [| split].
    + simpl. intros [H | []]. discriminate H.
    + simpl. intros [H | [H | []]]; discriminate H.
    + simpl. right. left. reflexivity.
Defined.

(** X2.  On a policy whose lists are lists and whose current mode has its
    rules with a rationale, [validate] ends in one of four ways: it returns
    [True], or it raises one of its three [PolicyViolationError]s; no
    [KeyError] or [TypeError] leaves it, and it never returns [False]. *)
Theorem validate_decides_on_a_well_formed_policy
  (self : PolicyEngine) (tool_name : string) (args context : option dict)
  (always_blocked allowed blocked : list value) (rules : dict) (rationale : value) :
  subscript2 (policy self) "global_rules" "always_blocked" = Ok (VList always_blocked) ->
  subscript2 (policy self) "modes" (current_mode self) = Ok (VDict rules) ->
  assoc "allowed_tools" rules = Some (VList allowed) ->
  assoc "blocked_tools" rules = Some (VList blocked) ->
  assoc "rationale" rules = Some rationale ->
  fst (validate tool_name args context self) = Ok true
  \/ fst (validate tool_name args context self)
     = Raise (PolicyViolationError
                [Lit "Tool '"; Lit tool_name;
                 Lit "' is globally blocked and can never be executed"]
                tool_name (current_mode self)
                "Globally blocked - destructive operation")
  \/ fst (validate tool_name args context self)
     = Raise (PolicyViolationError
                [Lit "Tool '"; Lit tool_name; Lit "' is blocked in "; Lit (current_mode self);
                 Lit " mode. "; Lit "Rationale: "; Str rationale]
                tool_name (current_mode self)
                ("Blocked in " ++ current_mode self ++ " mode"))
  \/ fst (validate tool_name args context self)
     = Raise (PolicyViolationError
                [Lit "Tool '"; Lit tool_name; Lit "' is not in the allowed list for ";
                 Lit (current_mode self); Lit " mode"]
                tool_name (current_mode self)
                ("Not whitelisted for " ++ current_mode self ++ " mode")).
Proof.
  intros Hg Hm Ha Hb Hr. unfold validate. run.
  rewrite Hg. simpl.
  destruct (existsb (eq_str tool_name) always_blocked); simpl; [right; left; reflexivity |].
  rewrite Hm. simpl. unfold getitem. rewrite Ha, Hb. simpl.
  destruct (existsb (eq_str tool_name) blocked); simpl.
  - rewrite Hr. simpl. right; right; left. reflexivity.
  - destruct (existsb (eq_str tool_name) allowed); simpl.
    + left. reflexivity.
    + right; right; right. reflexivity.
Qed.

(** X2, witness: the demonstration policy in EMERGENCY mode, asked about a
    tool it does not know. *)
Lemma validate_decides_on_a_well_formed_policy_witness :
  fst (validate "reboot_rack" None None (ops_policy.engine_in "EMERGENCY")) = Ok true
  \/ fst (validate "reboot_rack" None None (ops_policy.engine_in "EMERGENCY"))
     = Raise (PolicyViolationError
                [Lit "Tool '"; Lit "reboot_rack";
                 Lit "' is globally blocked and can never be executed"]
                "reboot_rack" "EMERGENCY"
                "Globally blocked - destructive operation")
  \/ fst (validate "reboot_rack" None None (ops_policy.engine_in "EMERGENCY"))
     = Raise (PolicyViolationError
                [Lit "Tool '"; Lit "reboot_rack"; Lit "' is blocked in "; Lit "EMERGENCY";
                 Lit " mode. "; Lit "Rationale: ";
                 Str (VStr "Corrective actions during an incident")]
                "reboot_rack" "EMERGENCY"
                "Blocked in EMERGENCY mode")
  \/ fst (validate "reboot_rack" None None (ops_policy.engine_in "EMERGENCY"))
     = Raise (PolicyViolationError
                [Lit "Tool '"; Lit "reboot_rack"; Lit "' is not in the allowed list for ";
                 Lit "EMERGENCY"; Lit " mode"]
                "reboot_rack" "EMERGENCY"
                "Not whitelisted for EMERGENCY mode").
Proof.
  apply (validate_decides_on_a_well_formed_policy
           (ops_policy.engine_in "EMERGENCY") "reboot_rack" None None
           [VStr "delete_database"]
           [VStr "get_service_status"; VStr "read_logs"; VStr "list_services";
            VStr "restart_service"; VStr "scale_fleet"]
           [] ops_policy.emergency_rules
           (VStr "Corrective actions during an incident"));
    reflexivity.
Defined.

(** X3.  [set_mode] stores the mode before it reads the mode's
    description: for a mode whose rules have no description the call
    raises [KeyError], and the engine is left in the new mode. *)
Theorem set_mode_switches_before_it_fails
  (self : PolicyEngine) (mode : string) (modes rules : dict) :
  subscript (policy self) "modes" = Ok (VDict modes) ->
  assoc mode modes = Some (VDict rules) ->
  assoc "description" rules = None ->
  set_mode mode self
  = (Raise (KeyError (VStr "description")), with_current_mode mode self).
Proof.
  intros Hms Hm Hd. unfold set_mode, subscript2. run.
  rewrite Hms. simpl. unfold mem, getitem. rewrite Hm. simpl.
  unfold getitem. rewrite Hd. reflexivity.
Qed.

(** X3, witness: a mode without description. *)
Lemma set_mode_switches_before_it_fails_witness :
  set_mode "AUDIT"
    (engine_with (VDict [("modes", VDict [("AUDIT", VDict [("allowed_tools", VList [])])])])
       "NORMAL")
  = (Raise (KeyError (VStr "description")),
     engine_with (VDict [("modes", VDict [("AUDIT", VDict [("allowed_tools", VList [])])])])
       "AUDIT").
Proof.
  apply (set_mode_switches_before_it_fails
           (engine_with
              (VDict [("modes", VDict [("AUDIT", VDict [("allowed_tools", VList [])])])])
              "NORMAL")
           "AUDIT"
           [("AUDIT", VDict [("allowed_tools", VList [])])]
           [("allowed_tools", VList [])]);
    reflexivity.
Defined.

Lemma with_current_mode_same (self : PolicyEngine) :
  with_current_mode (current_mode self) self = self.
Proof. destruct self. reflexivity. Qed.

(** X4.  Changes of mode compose as assignments do: after two calls the
    engine is as after the second alone when the second mode is defined,
    whatever the first was; and going to a defined mode and back to the
    mode one came from, itself defined, gives back the engine one started
    with. *)
Theorem set_mode_last_wins_and_round_trip
  (self : PolicyEngine) (mode1 mode2 : string) (modes : dict) :
  subscript (policy self) "modes" = Ok (VDict modes) ->
  mem mode2 modes = true ->
  snd (set_mode mode2 (snd (set_mode mode1 self))) = snd (set_mode mode2 self)
  /\ (mem (current_mode self) modes = true ->
      snd (set_mode (current_mode self) (snd (set_mode mode2 self))) = self).
Proof.
  intros Hms H2. split.
  - rewrite (set_mode_defined self mode2 modes Hms H2).
    destruct (set_mode_effect self mode1) as [-> | ->].
    + apply (set_mode_defined self mode2 modes Hms H2).
    + rewrite (set_mode_defined (with_current_mode mode1 self) mode2 modes Hms H2).
      reflexivity.
  - intros H0. rewrite (set_mode_defined self mode2 modes Hms H2).
    rewrite (set_mode_defined (with_current_mode mode2 self) (current_mode self) modes Hms H0).
    unfold with_current_mode. simpl. destruct self. reflexivity.
Qed.

(** X4, witness: NORMAL, EMERGENCY and back, on the demonstration
    policy. *)
Lemma set_mode_last_wins_and_round_trip_witness :
  snd (set_mode "NORMAL" (snd (set_mode "EMERGENCY" (ops_policy.engine_in "NORMAL"))))
  = ops_policy.engine_in "NORMAL".
Proof.
  apply (set_mode_last_wins_and_round_trip
           (ops_policy.engine_in "NORMAL") "MAINTENANCE" "EMERGENCY" ops_policy.modes);
    reflexivity.
Defined.

End Engine_coverage.

Section Engine_edges.

Import policy_engine lifecycle.

(** X5.  In a mode that is no key of the policy's modes nothing is
    admitted: [validate] returns for no tool (it raises, for a tool outside
    the global list a [KeyError] naming the mode), the two getters raise
    the same [KeyError], and [execute_tool] leaves the server as it was
    for every request. *)
Theorem nothing_is_admitted_in_an_undefined_mode
  (s : server.Server) (modes : dict) :
  subscript (policy (server.engine s)) "modes" = Ok (VDict modes) ->
  mem (current_mode (server.engine s)) modes = false ->
  (forall tool_name args context b,
     fst (validate tool_name args context (server.engine s)) <> Ok b)
  /\ (forall tool_name args context always_blocked,
        subscript2 (policy (server.engine s)) "global_rules" "always_blocked"
        = Ok (VList always_blocked) ->
        ~ In (VStr tool_name) always_blocked ->
        fst (validate tool_name args context (server.engine s))
        = Raise (KeyError (VStr (current_mode (server.engine s)))))
  /\ fst (get_allowed_tools (server.engine s))
     = Raise (KeyError (VStr (current_mode (server.engine s))))
  /\ fst (get_blocked_tools (server.engine s))
     = Raise (KeyError (VStr (current_mode (server.engine s))))
  /\ (forall request, snd (server.execute_tool request s) = s).
Proof.
  intros Hms Hm.
  assert (Hrules : subscript2 (policy (server.engine s)) "modes"
                     (current_mode (server.engine s))
                   = Raise (KeyError (VStr (current_mode (server.engine s))))).
  { unfold subscript2. rewrite Hms. simpl. unfold getitem.
    unfold mem in Hm. destruct (assoc (current_mode (server.engine s)) modes);
      [discriminate | reflexivity]. }
  assert (Hno : forall tool_name args context b,
             fst (validate tool_name args context (server.engine s)) <> Ok b).
  { intros tool_name args context' b. unfold validate. run.
    destruct (subscript2 (policy (server.engine s)) "global_rules" "always_blocked")
      as [ab | e]; simpl; [| discriminate].
    destruct (contains tool_name ab) as [[|] | e]; simpl; try discriminate.
    rewrite Hrules. simpl. discriminate. }
  split; [exact Hno |]. split; [| split; [| split]].
  - intros tool_name args context' ab Hg Hnin. unfold validate. run.
    rewrite Hg. simpl. rewrite (eqb_str_not_in _ _ Hnin). simpl.
    rewrite Hrules. reflexivity.
  - unfold get_allowed_tools. run. rewrite Hrules. reflexivity.
  - unfold get_blocked_tools. run. rewrite Hrules. reflexivity.
  - intros request. rewrite execute_tool_by_decision.
    pose proof (Hno (server.tool_name request) None None) as H.
    rewrite validate_decision in H. simpl in H.
    destruct (decision (policy (server.engine s)) (current_mode (server.engine s))
                (server.tool_name request)) as [b | e].
    + exfalso. apply (H b). reflexivity.
    + destruct e; reflexivity.
Qed.

(** X5, witness: the engine constructed from a policy whose only mode is
    EMERGENCY admits no request for [restart_service], which that mode
    allows. *)
Lemma nothing_is_admitted_in_an_undefined_mode_witness :
  snd (server.execute_tool
         {| server.tool_name := "restart_service";
            server.arguments := [("service_name", VStr "cache")];
            server.context := None |}
         (server_with emergency_only "NORMAL"))
  = server_with emergency_only "NORMAL".
Proof.
  apply (nothing_is_admitted_in_an_undefined_mode
           (server_with emergency_only "NORMAL")
           [("EMERGENCY",
               VDict [("description", VStr "Incident response");
                      ("rationale", VStr "Corrective actions during an incident");
                      ("allowed_tools", ops_policy.strs ["restart_service"]);
                      ("blocked_tools", ops_policy.strs [])])]);
    reflexivity.
Defined.

Lemma prefix_append (x b : string) : prefix x (x ++ b) = true.
Proof.
  induction x as [| c x IH]; simpl.
  - destruct b; reflexivity.
  - destruct (ascii_dec c c) as [_ | Hne]; [exact IH | contradiction].
Qed.

(** [is_substring] is the occurrence of one string inside another. *)
Lemma is_substring_occurs (x a b : string) : is_substring x (a ++ x ++ b) = true.
Proof.
  induction a as [| c a IH]; simpl.
  - pose proof (prefix_append x b) as H.
    destruct (x ++ b); cbn [is_substring]; rewrite H; reflexivity.
  - rewrite IH. apply orb_true_r.
Qed.

(** X6.  The lists of a policy are read with [in], whatever they are: when
    the [allowed_tools] of the current mode is one str instead of a list
    of them, every tool whose name occurs inside that str is admitted,
    unless it is blocked. *)
Theorem allowed_tools_as_one_str_admits_what_occurs_in_it
  (self : PolicyEngine) (args context : option dict)
  (always_blocked blocked : list value) (rules : dict)
  (before tool_name behind : string) :
  subscript2 (policy self) "global_rules" "always_blocked" = Ok (VList always_blocked) ->
  ~ In (VStr tool_name) always_blocked ->
  subscript2 (policy self) "modes" (current_mode self) = Ok (VDict rules) ->
  assoc "allowed_tools" rules = Some (VStr (before ++ tool_name ++ behind)) ->
  assoc "blocked_tools" rules = Some (VList blocked) ->
  ~ In (VStr tool_name) blocked ->
  validate tool_name args context self = (Ok true, self).
Proof.
  intros Hg Hnin Hm Ha Hb Hnb.
  apply validate_allowed
    with (always_blocked := VList always_blocked) (mode_policy := VDict rules)
         (allowed := VStr (before ++ tool_name ++ behind)) (blocked := VList blocked).
  - exact Hg.
  - simpl. rewrite (eqb_str_not_in _ _ Hnin). reflexivity.
  - exact Hm.
  - simpl. unfold getitem. rewrite Ha. reflexivity.
  - simpl. unfold getitem. rewrite Hb. reflexivity.
  - simpl. rewrite (eqb_str_not_in _ _ Hnb). reflexivity.
  - simpl. rewrite is_substring_occurs. reflexivity.
Qed.

(** X6, witness: a mode that allows "restart_service" as a str admits the
    tool "service". *)
Lemma allowed_tools_as_one_str_admits_what_occurs_in_it_witness :
  fst (validate "service" None None
         (engine_with
            (VDict [("global_rules", VDict [("always_blocked", VList [])]);
                    ("modes",
                       VDict [("NORMAL",
                                 VDict [("allowed_tools", VStr "restart_service");
                                        ("blocked_tools", VList [])])])])
            "NORMAL"))
  = Ok true.
Proof.
  rewrite (allowed_tools_as_one_str_admits_what_occurs_in_it
             (engine_with
                (VDict [("global_rules", VDict [("always_blocked", VList [])]);
                        ("modes",
                           VDict [("NORMAL",
                                     VDict [("allowed_tools", VStr "restart_service");
                                            ("blocked_tools", VList [])])])])
                "NORMAL")
             None None [] []
             [("allowed_tools", VStr "restart_service"); ("blocked_tools", VList [])]
             "restart_" "service" "").
  - reflexivity.
  - reflexivity.
  - simpl. intros [].
  - reflexivity.
  - reflexivity.
  - reflexivity.
  - simpl. intros [].
Defined.

(** X7.  The policy is never written after the load: whatever calls are
    made, an engine holds the document the file held when it was
    constructed, and the path [pathlib] makes of the string it was
    constructed with. *)
Theorem policy_is_fixed_at_construction
  (fs : filesystem) (path : string) (self : PolicyEngine) :
  reachable fs path self ->
  fs (pathlib.str (pathlib.Path path)) = Some (Parses_to (policy self))
  /\ policy_path self = pathlib.Path path.
Proof.
  induction 1 as [self Hinit | self c Hreach [IHp IHpath]].
  - split; [apply (init_sets_NORMAL fs path self Hinit) |].
    unfold __init__ in Hinit. destruct (_load_policy fs (pathlib.Path path)); simpl in Hinit;
      [injection Hinit as <-; reflexivity | discriminate].
  - rewrite after_keeps_policy. split; [exact IHp |].
    destruct c as [mode | | | | tool_name args context']; simpl.
    + destruct (set_mode_effect self mode) as [-> | ->]; exact IHpath.
    + exact IHpath.
    + destruct (getters_read_only self) as [_ [-> _]]. exact IHpath.
    + destruct (getters_read_only self) as [_ [_ ->]]. exact IHpath.
    + rewrite validate_reads_only. exact IHpath.
Qed.

(** X7, witness: an engine constructed with a spelling of the path that
    [pathlib] normalises; after a change of mode and a decision its policy
    is the demonstration policy still, and its path the normalised one. *)
Lemma policy_is_fixed_at_construction_witness :
  ops_policy.fs "/srv/proxi/policies/ops_policy.json"
  = Some (Parses_to
            (policy (after (Validate "read_logs" None None)
                       (after (Set_mode "EMERGENCY") (ops_policy.engine_in "NORMAL")))))
  /\ policy_path (after (Validate "read_logs" None None)
                    (after (Set_mode "EMERGENCY") (ops_policy.engine_in "NORMAL")))
     = {| pathlib.root := "/";
          pathlib.parts := ["srv"; "proxi"; "policies"; "ops_policy.json"] |}.
Proof.
  apply (policy_is_fixed_at_construction
           ops_policy.fs "/srv/proxi/./policies//ops_policy.json").
  apply reach_call. apply reach_call. apply reach_init. reflexivity.
Defined.

End Engine_edges.

(* ===================================================================== *)
(** * Further properties of the cloud infrastructure *)
(* ===================================================================== *)

Section Dict_items.

Context {V : Type}.

Lemma assoc_setitem_same (k : string) (v : V) (d : list (string * V)) :
  assoc k (setitem k v d) = Some v.
Proof.
  induction d as [| [k' v'] d IH]; simpl.
  - rewrite String.eqb_refl. reflexivity.
  - destruct (String.eqb k k') eqn:E; simpl; rewrite E; [reflexivity | exact IH].
Qed.

Lemma assoc_setitem_other (k k' : string) (v : V) (d : list (string * V)) :
  k' <> k -> assoc k' (setitem k v d) = assoc k' d.
Proof.
  intros Hne. induction d as [| [k0 v0] d IH]; simpl.
  - apply String.eqb_neq in Hne. rewrite Hne. reflexivity.
  - destruct (String.eqb k k0) eqn:E; simpl.
    + apply String.eqb_eq in E. subst k0.
      apply String.eqb_neq in Hne. rewrite Hne. reflexivity.
    + destruct (String.eqb k' k0); [reflexivity | exact IH].
Qed.

Lemma keys_setitem (k : string) (v : V) (d : list (string * V)) :
  mem k d = true -> keys (setitem k v d) = keys d.
Proof.
  unfold mem, keys. induction d as [| [k' v'] d IH]; simpl.
  - discriminate.
  - destruct (String.eqb k k') eqn:E; simpl; [reflexivity |].
    intros H. rewrite (IH H). reflexivity.
Qed.

Lemma setitem_same (k : string) (v : V) (d : list (string * V)) :
  assoc k d = Some v -> setitem k v d = d.
Proof.
  induction d as [| [k' v'] d IH]; simpl.
  - discriminate.
  - destruct (String.eqb k k') eqn:E.
    + intros H. injection H as ->. reflexivity.
    + intros H. rewrite (IH H). reflexivity.
Qed.

Lemma setitem_setitem (k : string) (v v' : V) (d : list (string * V)) :
  mem k d = true -> setitem k v (setitem k v' d) = setitem k v d.
Proof.
  unfold mem. induction d as [| [k0 v0] d IH]; simpl.
  - discriminate.
  - destruct (String.eqb k k0) eqn:E; simpl; rewrite E; [reflexivity |].
    intros H. rewrite (IH H). reflexivity.
Qed.

Lemma mem_setitem (k k' : string) (v : V) (d : list (string * V)) :
  mem k d = true -> mem k' (setitem k v d) = mem k' d.
Proof.
  intros H. unfold mem. destruct (String.eqb k' k) eqn:E.
  - apply String.eqb_eq in E. subst k'. rewrite assoc_setitem_same.
    unfold mem in H. destruct (assoc k d); [reflexivity | discriminate].
  - apply String.eqb_neq in E. rewrite (assoc_setitem_other k k' v d E). reflexivity.
Qed.

End Dict_items.

Section Cloud_coverage.

Import tools.

Ltac operate :=
  unfold list_services, get_service_status, read_logs, restart_service, scale_fleet,
    delete_database, set_service_health, _log_action, update, now_isoformat, self;
  run.

(** X8.  Every operation of [CloudInfrastructure] that a tool calls begins
    by logging itself: whatever its argument is, and whether it then
    returns or raises, the execution log after the call is the log before
    it followed by one entry, with the time, the name of the operation and
    the argument it was given. *)
Theorem every_operation_logs_itself_once (x : value) (s : State) :
  let now := reading (clock s) (reads (clock s)) in
  let logged (after : State) (action : string) (details : dict) :=
    execution_log (cloud_infra after)
    = (execution_log (cloud_infra s) ++ [log_entry now action details])%list in
  logged (snd (list_services s)) "list_services" []
  /\ logged (snd (get_service_status x s)) "get_service_status" [("service", x)]
  /\ logged (snd (read_logs x s)) "read_logs" [("lines", x)]
  /\ logged (snd (restart_service x s)) "restart_service" [("service", x)]
  /\ logged (snd (scale_fleet x s)) "scale_fleet" [("target_count", x)]
  /\ logged (snd (delete_database x s)) "delete_database" [("db_name", x)].
Proof.
  simpl. conjuncts.
  - reflexivity.
  - operate. destruct (truthy x); simpl; [| reflexivity].
    destruct (find_key x (services (cloud_infra s))) as [[k |] | e]; simpl;
      try reflexivity.
    destruct (assoc k (services (cloud_infra s))); reflexivity.
  - operate. destruct (slice_to log_entries x); reflexivity.
  - operate. destruct (find_key x (services (cloud_infra s))) as [[k |] | e]; reflexivity.
  - apply scale_fleet_frame.
  - reflexivity.
Qed.

(** X9.  What each operation leaves alone, whatever its argument and
    however it ends: the four operations that only read, and
    [delete_database] with them, change neither the services nor the fleet
    size; [restart_service] does not change the fleet size;
    [set_service_health] changes neither the fleet size nor the log, and
    reads no clock. *)
Theorem operations_keep_what_they_do_not_own (x : value) (service status : string) (s : State) :
  let same_services (after : State) :=
    services (cloud_infra after) = services (cloud_infra s) in
  let same_fleet (after : State) :=
    fleet_size (cloud_infra after) = fleet_size (cloud_infra s) in
  (same_services (snd (list_services s)) /\ same_fleet (snd (list_services s)))
  /\ (same_services (snd (get_service_status x s))
      /\ same_fleet (snd (get_service_status x s)))
  /\ (same_services (snd (read_logs x s)) /\ same_fleet (snd (read_logs x s)))
  /\ (same_services (snd (delete_database x s))
      /\ same_fleet (snd (delete_database x s)))
  /\ same_fleet (snd (restart_service x s))
  /\ (same_fleet (snd (set_service_health service status s))
      /\ execution_log (cloud_infra (snd (set_service_health service status s)))
         = execution_log (cloud_infra s)
      /\ clock (snd (set_service_health service status s)) = clock s).
Proof.
  simpl. conjuncts; try reflexivity.
  - operate. destruct (truthy x); simpl; [| reflexivity].
    destruct (find_key x (services (cloud_infra s))) as [[k |] | e]; simpl;
      try reflexivity.
    destruct (assoc k (services (cloud_infra s))); reflexivity.
  - operate. destruct (truthy x); simpl; [| reflexivity].
    destruct (find_key x (services (cloud_infra s))) as [[k |] | e]; simpl;
      try reflexivity.
    destruct (assoc k (services (cloud_infra s))); reflexivity.
  - operate. destruct (slice_to log_entries x); reflexivity.
  - operate. destruct (slice_to log_entries x); reflexivity.
  - operate. destruct (find_key x (services (cloud_infra s))) as [[k |] | e]; reflexivity.
  - operate. destruct (mem service (services (cloud_infra s))); reflexivity.
  - operate. destruct (mem service (services (cloud_infra s))); reflexivity.
  - operate. destruct (mem service (services (cloud_infra s))); reflexivity.
Qed.

(** X10.  [restart_service] on the name of a service makes that service
    healthy and touches no other: the health of every other service and
    the names of the services, in their order, are as before, and the
    answer has the status "success"; on a str that names no service the
    answer has the status "error" and the services are as before. *)
Theorem restart_service_restarts_the_named_service_only (k : string) (s : State) :
  (mem k (services (cloud_infra s)) = true ->
     (exists r, fst (restart_service (VStr k) s) = Ok r
                /\ assoc "status" r = Some (str_ "success")
                /\ assoc "service" r = Some (Val (VStr k))
                /\ assoc "new_health" r = Some (str_ "healthy"))
     /\ assoc k (services (cloud_infra (snd (restart_service (VStr k) s)))) = Some "healthy"
     /\ (forall k', k' <> k ->
           assoc k' (services (cloud_infra (snd (restart_service (VStr k) s))))
           = assoc k' (services (cloud_infra s)))
     /\ keys (services (cloud_infra (snd (restart_service (VStr k) s))))
        = keys (services (cloud_infra s)))
  /\ (mem k (services (cloud_infra s)) = false ->
        (exists r, fst (restart_service (VStr k) s) = Ok r
                   /\ assoc "status" r = Some (str_ "error")
                   /\ assoc "available_services" r
                      = Some (Val (VList (map VStr (keys (services (cloud_infra s)))))))
        /\ services (cloud_infra (snd (restart_service (VStr k) s)))
           = services (cloud_infra s)).
Proof.
  split; intros Hk.
  - assert (Hs : services (cloud_infra (snd (restart_service (VStr k) s)))
                 = setitem k "healthy" (services (cloud_infra s))).
    { operate. rewrite Hk. reflexivity. }
    rewrite Hs. conjuncts.
    + operate. rewrite Hk. simpl. eexists. split; [reflexivity |]. repeat split.
    + apply assoc_setitem_same.
    + intros k' Hne. apply assoc_setitem_other. exact Hne.
    + apply keys_setitem. exact Hk.
  - split.
    + operate. rewrite Hk. simpl. eexists. split; [reflexivity |]. repeat split.
    + operate. rewrite Hk. reflexivity.
Qed.

(** X10, witness: the database of the initial infrastructure. *)
Lemma restart_service_restarts_the_named_service_only_witness :
  assoc "database"
    (services (cloud_infra (snd (restart_service (VStr "database")
                                   {| cloud_infra := __init__;
                                      clock := ops_policy.clock |}))))
  = Some "healthy".
Proof.
  destruct (restart_service_restarts_the_named_service_only "database"
              {| cloud_infra := __init__; clock := ops_policy.clock |})
    as [Hknown _].
  destruct (Hknown eq_refl) as [_ [Hhealthy _]]. exact Hhealthy.
Defined.

(** X11.  [set_service_health] never adds a service: for a name that is no
    service it does nothing at all; for a service it stores the status,
    keeps the names and every other health, and [get_service_status] asked
    about that service afterwards reports the status that was stored (the
    name being not empty: an empty name asks for all services). *)
Theorem set_service_health_then_get_service_status (k status : string) (s : State) :
  (mem k (services (cloud_infra s)) = false ->
     set_service_health k status s = (Ok tt, s))
  /\ (mem k (services (cloud_infra s)) = true ->
        keys (services (cloud_infra (snd (set_service_health k status s))))
        = keys (services (cloud_infra s))
        /\ (forall k', k' <> k ->
              assoc k' (services (cloud_infra (snd (set_service_health k status s))))
              = assoc k' (services (cloud_infra s)))
        /\ (k <> "" ->
            fst (get_service_status (VStr k) (snd (set_service_health k status s)))
            = Ok [("service", Val (VStr k));
                  ("health", str_ status);
                  ("timestamp", str_ (reading (clock s) (S (reads (clock s)))))])).
Proof.
  split; intros Hk.
  - operate. rewrite Hk. simpl. destruct s as [c t]. reflexivity.
  - assert (Hs : snd (set_service_health k status s)
                 = {| cloud_infra :=
                        with_services (setitem k status (services (cloud_infra s)))
                          (cloud_infra s);
                      clock := clock s |}).
    { operate. rewrite Hk. reflexivity. }
    rewrite Hs. simpl. conjuncts.
    + apply keys_setitem. exact Hk.
    + intros k' Hne. apply assoc_setitem_other. exact Hne.
    + intros Hne. operate.
      apply String.eqb_neq in Hne. rewrite Hne. simpl.
      rewrite (mem_setitem k k status _ Hk), Hk. simpl.
      rewrite assoc_setitem_same. reflexivity.
Qed.

(** X11, witness: an incident on the cache, then its status. *)
Lemma set_service_health_then_get_service_status_witness :
  fst (get_service_status (VStr "cache")
         (snd (set_service_health "cache" "critical"
                 {| cloud_infra := __init__; clock := ops_policy.clock |})))
  = Ok [("service", Val (VStr "cache"));
        ("health", str_ "critical");
        ("timestamp", str_ "2024-01-01T00:00:00")].
Proof.
  destruct (set_service_health_then_get_service_status "cache" "critical"
              {| cloud_infra := __init__; clock := ops_policy.clock |})
    as [_ Hknown].
  destruct (Hknown eq_refl) as [_ [_ Hstatus]].
  apply Hstatus. discriminate.
Defined.

(** X12.  A restart undoes an incident: when a healthy service is given
    another health by [set_service_health] and is then restarted, the
    services are what they were before the incident. *)
Theorem restart_service_undoes_an_incident (k status : string) (s : State) :
  assoc k (services (cloud_infra s)) = Some "healthy" ->
  services (cloud_infra (snd (restart_service (VStr k)
                                (snd (set_service_health k status s)))))
  = services (cloud_infra s).
Proof.
  intros Hk.
  assert (Hm : mem k (services (cloud_infra s)) = true).
  { unfold mem. rewrite Hk. reflexivity. }
  operate. rewrite Hm. simpl.
  rewrite (mem_setitem k k status _ Hm), Hm. simpl.
  rewrite (setitem_setitem k "healthy" status _ Hm).
  apply setitem_same. exact Hk.
Qed.

(** X12, witness: the api gateway of the initial infrastructure. *)
Lemma restart_service_undoes_an_incident_witness :
  services (cloud_infra
              (snd (restart_service (VStr "api-gateway")
                      (snd (set_service_health "api-gateway" "degraded"
                              {| cloud_infra := __init__;
                                 clock := ops_policy.clock |})))))
  = services __init__.
Proof.
  apply (restart_service_undoes_an_incident "api-gateway" "degraded"
           {| cloud_infra := __init__; clock := ops_policy.clock |}).
  reflexivity.
Defined.

(** X13.  [read_logs] with an integer [lines] returns the first lines of
    the five simulated ones, as a slice does: [lines] of them when it is
    from 0 to 5, all five when it is larger, and for a negative [lines] all
    but the last [-lines], that is none from -5 down; [total_available] is
    5 in every case. *)
Theorem read_logs_returns_a_bounded_prefix (lines : Z) (s : State) :
  exists log_lines rest timestamp,
    fst (read_logs (VInt lines) s)
    = Ok [("log_lines", Val (VList (map VStr log_lines)));
          ("timestamp", str_ timestamp);
          ("total_available", Val (VInt 5))]
    /\ log_entries = (log_lines ++ rest)%list
    /\ Z.of_nat (length log_lines)
       = (if lines <? 0 then Z.max 0 (5 + lines) else Z.min lines 5)%Z.
Proof.
  set (n := if (0 <=? lines)%Z then Z.to_nat lines else Z.to_nat (5 + lines)).
  exists (firstn n log_entries), (skipn n log_entries),
    (reading (clock s) (S (reads (clock s)))).
  split; [| split].
  - operate. unfold n. destruct (0 <=? lines)%Z; reflexivity.
  - symmetry. apply firstn_skipn.
  - rewrite length_firstn. change (length log_entries) with 5%nat. unfold n.
    destruct (Z.leb_spec 0 lines) as [H | H];
      destruct (Z.ltb_spec lines 0) as [H' | H']; lia.
Qed.

(** X24.  [get_service_status] tells a name from no name by its truth
    value: without a name, and with any name that is false ([None], the
    empty str, 0), it returns all the services with the fleet size and no
    error; with a str that is not empty and names no service it returns an
    error with the names that exist. *)
Theorem get_service_status_without_a_name_and_with_an_unknown_one
  (service_name : value) (s : State) :
  (truthy service_name = false ->
     fst (get_service_status service_name s)
     = Ok [("services", Val (services_dict (cloud_infra s)));
           ("fleet_size", Val (fleet_size (cloud_infra s)));
           ("timestamp", str_ (reading (clock s) (S (reads (clock s)))))])
  /\ (forall k,
        service_name = VStr k -> k <> "" ->
        mem k (services (cloud_infra s)) = false ->
        fst (get_service_status service_name s)
        = Ok [("status", str_ "error");
              ("message", Fmt [Lit "Service '"; Str (VStr k); Lit "' not found"]);
              ("available_services",
                 Val (VList (map VStr (keys (services (cloud_infra s))))))]).
Proof.
  split.
  - intros Hfalse. operate. rewrite Hfalse. reflexivity.
  - intros k -> Hne Hk. operate.
    apply String.eqb_neq in Hne. rewrite Hne. simpl. rewrite Hk. reflexivity.
Qed.

(** X24, witness: the empty name, and the name of a service that does not
    exist, asked of the initial infrastructure. *)
Lemma get_service_status_without_a_name_and_with_an_unknown_one_witness :
  fst (get_service_status (VStr "")
         {| cloud_infra := __init__; clock := ops_policy.clock |})
  = Ok [("services", Val (services_dict __init__));
        ("fleet_size", Val (VInt 3));
        ("timestamp", str_ "2024-01-01T00:00:00")]
  /\ fst (get_service_status (VStr "queue")
            {| cloud_infra := __init__; clock := ops_policy.clock |})
     = Ok [("status", str_ "error");
           ("message", Fmt [Lit "Service '"; Str (VStr "queue"); Lit "' not found"]);
           ("available_services",
              Val (VList [VStr "web-server"; VStr "api-gateway";
                          VStr "database"; VStr "cache"]))].
Proof.
  split.
  - apply (get_service_status_without_a_name_and_with_an_unknown_one (VStr "")
             {| cloud_infra := __init__; clock := ops_policy.clock |}).
    reflexivity.
  - apply (get_service_status_without_a_name_and_with_an_unknown_one (VStr "queue")
             {| cloud_infra := __init__; clock := ops_policy.clock |})
      with (k := "queue").
    + reflexivity.
    + discriminate.
    + reflexivity.
Defined.

End Cloud_coverage.

(* ===================================================================== *)
(** * Further properties of the server *)
(* ===================================================================== *)

Section Tool_effects.

Import policy_engine server endpoints.

Ltac operate :=
  unfold tools.wrapper_get_service_status, tools.wrapper_read_logs,
    tools.wrapper_restart_service, tools.wrapper_scale_fleet,
    tools.wrapper_delete_database, tools.wrapper_list_services,
    tools.list_services, tools.get_service_status, tools.read_logs,
    tools.restart_service, tools.scale_fleet, tools.delete_database,
    tools.set_service_health, tools._log_action, tools.update,
    tools.now_isoformat, tools.self;
  run.

Lemma tool_effect_none (tool_name : string) (w : tools.State) : tool_effect tool_name w w.
Proof. split; [reflexivity | split; [auto | left; reflexivity]]. Qed.

Ltac logged := right; eexists; eexists; reflexivity.

Lemma effect_list_services (w : tools.State) :
  tool_effect "list_services" w (snd (tools.wrapper_list_services w)).
Proof. operate. split; [reflexivity | split; [auto | logged]]. Qed.

Lemma effect_delete_database (x : value) (w : tools.State) :
  tool_effect "delete_database" w (snd (tools.wrapper_delete_database x w)).
Proof. operate. split; [reflexivity | split; [auto | logged]]. Qed.

Lemma effect_read_logs (x : value) (w : tools.State) :
  tool_effect "read_logs" w (snd (tools.wrapper_read_logs x w)).
Proof.
  operate. destruct (slice_to tools.log_entries x); simpl;
    (split; [reflexivity | split; [auto | logged]]).
Qed.

Lemma effect_get_service_status (x : value) (w : tools.State) :
  tool_effect "get_service_status" w (snd (tools.wrapper_get_service_status x w)).
Proof.
  operate. destruct (truthy x); simpl.
  - destruct (find_key x (tools.services (tools.cloud_infra w))) as [[k |] | e]; simpl.
    + destruct (assoc k (tools.services (tools.cloud_infra w))); simpl;
        (split; [reflexivity | split; [auto | logged]]).
    + split; [reflexivity | split; [auto | logged]].
    + split; [reflexivity | split; [auto | logged]].
  - split; [reflexivity | split; [auto | logged]].
Qed.

Lemma effect_restart_service (x : value) (w : tools.State) :
  tool_effect "restart_service" w (snd (tools.wrapper_restart_service x w)).
Proof.
  operate.
  destruct (find_key x (tools.services (tools.cloud_infra w))) as [[k |] | e] eqn:E; simpl.
  - split; [| split; [auto | logged]].
    apply keys_setitem. destruct x; simpl in E; try discriminate.
    destruct (mem s (tools.services (tools.cloud_infra w))) eqn:Hm; [| discriminate].
    injection E as <-. exact Hm.
  - split; [reflexivity | split; [auto | logged]].
  - split; [reflexivity | split; [auto | logged]].
Qed.

Lemma effect_scale_fleet (x : value) (w : tools.State) :
  tool_effect "scale_fleet" w (snd (tools.wrapper_scale_fleet x w)).
Proof.
  operate. destruct (lt_int x 1) as [[|] | e] eqn:Hlt; simpl.
  - split; [reflexivity | split; [auto | logged]].
  - destruct (gt_int x 100) as [[|] | e] eqn:Hgt; simpl.
    + split; [reflexivity | split; [auto | logged]].
    + split; [reflexivity | split; [| logged]].
      intros _. split; assumption.
    + split; [reflexivity | split; [auto | logged]].
  - split; [reflexivity | split; [auto | logged]].
Qed.

(** The handler of [TypeError] in [_execute_tool_function] only raises. *)
Lemma execute_tool_function_state (tool_name : string) (arguments : dict) (w : tools.State) :
  snd (_execute_tool_function tool_name arguments w)
  = match assoc tool_name tool_map with
    | Some tool_function => snd (tool_function arguments w)
    | None => w
    end.
Proof.
  unfold _execute_tool_function.
  destruct (assoc tool_name tool_map) as [tool_function |]; [| reflexivity].
  run. destruct (tool_function arguments w) as [[r | e] w']; [reflexivity |].
  destruct e; reflexivity.
Qed.

(** Whatever tool is asked for, with whatever arguments: the names of the
    services stay, the fleet size stays in bounds, and the log gets at most
    one entry, whose action is the name of the tool. *)
Lemma execute_tool_function_effect (tool_name : string) (arguments : dict) (w : tools.State) :
  tool_effect tool_name w (snd (_execute_tool_function tool_name arguments w)).
Proof.
  rewrite execute_tool_function_state. unfold tool_map.
  cbn [assoc].
  repeat match goal with
         | |- context [String.eqb tool_name ?name] =>
             let E := fresh "E" in
             destruct (String.eqb tool_name name) eqn:E;
             [apply String.eqb_eq in E; subst tool_name | clear E]
         end;
    try apply tool_effect_none;
    run;
    match goal with
    | |- context [keyword_argument ?p ?d arguments] =>
        destruct (keyword_argument p d arguments) as [x | e]; simpl;
        [| apply tool_effect_none]
    | |- context [no_argument arguments] =>
        destruct (no_argument arguments) as [x | e]; simpl;
        [| apply tool_effect_none]
    end.
  - apply effect_get_service_status.
  - apply effect_read_logs.
  - apply effect_restart_service.
  - apply effect_scale_fleet.
  - apply effect_delete_database.
  - apply effect_list_services.
Qed.

End Tool_effects.

Section Server_invariants.

Import policy_engine server endpoints.

Lemma on_engine_state {A : Type} (c : M PolicyEngine A) (s : Server) :
  engine (snd (on_engine c s)) = snd (c (engine s))
  /\ cloud (snd (on_engine c s)) = cloud s.
Proof. unfold on_engine, zoom. destruct (c (engine s)). split; reflexivity. Qed.

Lemma on_cloud_state {A : Type} (c : M tools.State A) (s : Server) :
  engine (snd (on_cloud c s)) = engine s
  /\ cloud (snd (on_cloud c s)) = snd (c (cloud s)).
Proof. unfold on_cloud, zoom. destruct (c (cloud s)). split; reflexivity. Qed.

(** The state after each handler, part by part. *)
Lemma root_state (s : Server) : snd (root s) = s.
Proof. unfold root, uncaught, on_engine, get_current_mode. run. apply server_eta. Qed.

Lemma get_infrastructure_status_state (s : Server) :
  snd (get_infrastructure_status s) = s.
Proof.
  unfold get_infrastructure_status, uncaught, on_cloud, tools.self. run.
  destruct s as [e [c t]]. reflexivity.
Qed.

Lemma set_mode_handler_state (mode : string) (s : Server) :
  snd (endpoints.set_mode mode s)
  = {| engine := snd (policy_engine.set_mode mode (engine s)); cloud := cloud s |}.
Proof.
  unfold endpoints.set_mode, on_engine. run.
  destruct (policy_engine.set_mode mode (engine s)) as [[u | e] self'] eqn:E; simpl.
  - pose proof (getters_read_only self') as [_ [Hg _]].
    destruct (get_allowed_tools self') as [[allowed | e] self'']; simpl in *; subst;
      [reflexivity | destruct e; reflexivity].
  - destruct e; reflexivity.
Qed.

Lemma simulate_incident_state (service : string) (status : option string) (s : Server) :
  snd (simulate_incident service status s)
  = {| engine := engine s;
       cloud := snd (tools.set_service_health service
                       (match status with Some given => given | None => "critical" end)
                       (cloud s)) |}.
Proof.
  unfold simulate_incident, uncaught, on_cloud. run.
  destruct (tools.set_service_health service _ (cloud s)) as [[u | e] w]; reflexivity.
Qed.

Lemma execute_tool_state (r : ToolRequest) (s : Server) :
  snd (endpoints.execute_tool r s) = s
  \/ (exists b, decision (policy (engine s)) (current_mode (engine s)) (tool_name r) = Ok b)
     /\ snd (endpoints.execute_tool r s)
        = {| engine := engine s;
             cloud := snd (_execute_tool_function (tool_name r) (arguments r) (cloud s)) |}.
Proof.
  unfold endpoints.execute_tool, uncaught.
  rewrite execute_tool_by_decision.
  destruct (decision (policy (engine s)) (current_mode (engine s)) (tool_name r))
    as [b | e].
  - right. split; [exists b; reflexivity |].
    destruct (_execute_tool_function (tool_name r) (arguments r) (cloud s))
      as [[x | e] w]; reflexivity.
  - left. destruct e; reflexivity.
Qed.

(** No request changes the policy or the path of the engine. *)
Lemma handle_keeps_policy (q : request) (s : Server) :
  policy (engine (handle q s)) = policy (engine s).
Proof.
  destruct q as [| mode | | service status | r]; unfold handle.
  - rewrite root_state. reflexivity.
  - rewrite set_mode_handler_state. simpl.
    destruct (set_mode_effect (engine s) mode) as [-> | ->]; reflexivity.
  - rewrite get_infrastructure_status_state. reflexivity.
  - rewrite simulate_incident_state. reflexivity.
  - destruct (execute_tool_state r s) as [-> | [_ ->]]; reflexivity.
Qed.

(** What a request can do to the infrastructure: what a tool can do, and to
    the log only for a tool the policy admits. *)
Lemma handle_effect (q : request) (s : Server) :
  exists tool_name,
    tool_effect tool_name (cloud s) (cloud (handle q s))
    /\ (tools.execution_log (tools.cloud_infra (cloud (handle q s)))
        = tools.execution_log (tools.cloud_infra (cloud s))
        \/ exists b,
             decision (policy (engine s)) (current_mode (engine s)) tool_name = Ok b).
Proof.
  destruct q as [| mode | | service status | r]; unfold handle.
  - rewrite root_state. exists "". split; [apply tool_effect_none | left; reflexivity].
  - rewrite set_mode_handler_state. simpl.
    exists "". split; [apply tool_effect_none | left; reflexivity].
  - rewrite get_infrastructure_status_state.
    exists "". split; [apply tool_effect_none | left; reflexivity].
  - rewrite simulate_incident_state. simpl.
    set (given := match status with Some given => given | None => "critical" end).
    unfold tools.set_service_health, tools.self, tools.update. run.
    destruct (mem service (tools.services (tools.cloud_infra (cloud s)))) eqn:Hm; simpl.
    + exists "". split; [| left; reflexivity].
      split; [apply keys_setitem; exact Hm | split; [auto | left; reflexivity]].
    + exists "". split; [apply tool_effect_none | left; reflexivity].
  - destruct (execute_tool_state r s) as [-> | [Hb ->]]; simpl.
    + exists "". split; [apply tool_effect_none | left; reflexivity].
    + exists (tool_name r). split; [apply execute_tool_function_effect | right; exact Hb].
Qed.

(** X14.  Whatever requests a server has handled, its services are the
    four it started with, by name and in order (no request adds, removes or
    renames a service), and its fleet size is in bounds: not below 1 and
    not above 100, as Python compares. *)
Theorem services_and_fleet_bounds_are_kept
  (fs : filesystem) (clock : tools.Clock) (s : Server) :
  serving fs clock s ->
  keys (tools.services (tools.cloud_infra (cloud s)))
  = ["web-server"; "api-gateway"; "database"; "cache"]
  /\ fleet_in_bounds (tools.cloud_infra (cloud s)).
Proof.
  induction 1 as [__file__ s Hstart | s q Hserving [IHk IHf]].
  - unfold startup in Hstart.
    destruct (__init__ fs (pathlib.str (policy_path __file__))); simpl in Hstart; [| discriminate].
    injection Hstart as <-. split; [reflexivity | split; reflexivity].
  - destruct (handle_effect q s) as [tool [[Hk [Hf _]] _]].
    rewrite Hk. split; [exact IHk | apply Hf; exact IHf].
Qed.

(** X14, witness: after a scaling, an incident and a restart. *)
Lemma services_and_fleet_bounds_are_kept_witness :
  fleet_in_bounds
    (tools.cloud_infra
       (cloud
          (handle (ExecuteTool {| tool_name := "restart_service";
                                  arguments := [("service_name", VStr "cache")];
                                  context := None |})
             (handle (SimulateIncident "cache" None)
                (handle (ExecuteTool {| tool_name := "scale_fleet";
                                        arguments := [("count", VInt 40)];
                                        context := None |})
                   (handle (SetMode "EMERGENCY") (ops_policy.server_in "NORMAL"))))))).
Proof.
  apply (services_and_fleet_bounds_are_kept ops_policy.fs ops_policy.clock).
  do 4 apply serving_step. apply (serving_start _ _ ops_policy.module_file). reflexivity.
Defined.

(** A tool that gets an answer from the policy is not in the global list. *)
Lemma decided_tool_is_not_always_blocked
  (policy : value) (mode tool_name : string) (b : bool) (always_blocked : list value) :
  decision policy mode tool_name = Ok b ->
  subscript2 policy "global_rules" "always_blocked" = Ok (VList always_blocked) ->
  ~ In (VStr tool_name) always_blocked.
Proof.
  unfold decision, validate. run. intros H Hg. rewrite Hg in H. simpl in H.
  intros Hin. rewrite (eqb_str_in _ _ Hin) in H. discriminate H.
Qed.

(** X15.  A tool of the global list is never run: whatever requests a
    server has handled, in whatever modes, no entry of its execution log
    has for action a tool that the policy lists in
    [global_rules.always_blocked]. *)
Theorem no_always_blocked_tool_is_ever_logged
  (fs : filesystem) (clock : tools.Clock) (s : Server) (always_blocked : list value) :
  serving fs clock s ->
  subscript2 (policy (engine s)) "global_rules" "always_blocked"
  = Ok (VList always_blocked) ->
  forall log_entry tool_name,
    In log_entry (tools.execution_log (tools.cloud_infra (cloud s))) ->
    In (VStr tool_name) always_blocked ->
    action_of log_entry <> Some (VStr tool_name).
Proof.
  induction 1 as [__file__ s Hstart | s q Hserving IH].
  - unfold startup in Hstart.
    destruct (__init__ fs (pathlib.str (policy_path __file__))); simpl in Hstart; [| discriminate].
    injection Hstart as <-. intros _ log_entry tool_name [].
  - rewrite handle_keeps_policy. intros Hg log_entry blocked_tool Hin Hblocked.
    destruct (handle_effect q s) as [tool [[_ [_ Hlog]] Hadmitted]].
    destruct Hadmitted as [Hsame | [b Hb]].
    + rewrite Hsame in Hin. apply (IH Hg log_entry blocked_tool Hin Hblocked).
    + destruct Hlog as [Hsame | [timestamp [details Happ]]].
      * rewrite Hsame in Hin. apply (IH Hg log_entry blocked_tool Hin Hblocked).
      * rewrite Happ in Hin. apply in_app_or in Hin.
        destruct Hin as [Hold | [<- | []]].
        -- apply (IH Hg log_entry blocked_tool Hold Hblocked).
        -- simpl. intros Heq. injection Heq as <-.
           apply (decided_tool_is_not_always_blocked _ _ _ _ _ Hb Hg). exact Hblocked.
Qed.

(** X15, witness: [delete_database] asked for in both modes of the
    demonstration policy, after a [read_logs] that was logged, leaves no
    entry. *)
Lemma no_always_blocked_tool_is_ever_logged_witness :
  Forall (fun log_entry => action_of log_entry <> Some (VStr "delete_database"))
    (tools.execution_log
       (tools.cloud_infra
          (cloud
             (handle (ExecuteTool {| tool_name := "delete_database";
                                     arguments := [("db_name", VStr "users")];
                                     context := None |})
                (handle (SetMode "EMERGENCY")
                   (handle (ExecuteTool {| tool_name := "delete_database";
                                           arguments := [("db_name", VStr "users")];
                                           context := None |})
                      (handle (ExecuteTool {| tool_name := "read_logs";
                                              arguments := [];
                                              context := None |})
                         (ops_policy.server_in "NORMAL")))))))).
Proof.
  apply Forall_forall. intros log_entry Hin.
  refine (no_always_blocked_tool_is_ever_logged ops_policy.fs ops_policy.clock
            _ [VStr "delete_database"] _ _ log_entry "delete_database" Hin _).
  - do 4 apply serving_step. apply (serving_start _ _ ops_policy.module_file). reflexivity.
  - reflexivity.
  - simpl. left. reflexivity.
Defined.

(** X16.  The execution log only grows, and by one entry at most for each
    request: the log after a request is the log before it, followed by
    nothing or by one entry. *)
Theorem the_log_is_append_only (q : request) (s : Server) :
  exists added,
    tools.execution_log (tools.cloud_infra (cloud (handle q s)))
    = (tools.execution_log (tools.cloud_infra (cloud s)) ++ added)%list
    /\ (length added <= 1)%nat.
Proof.
  destruct (handle_effect q s) as [tool [[_ [_ Hlog]] _]].
  destruct Hlog as [Hsame | [timestamp [details Happ]]].
  - exists []. rewrite Hsame, app_nil_r. split; [reflexivity | simpl; lia].
  - eexists. split; [exact Happ | simpl; lia].
Qed.

End Server_invariants.

Section Gateway_coverage.

Import policy_engine server endpoints.

(** X17.  [execute_tool] never writes the engine, and what it answers is
    one of three shapes: a result with [success] and nothing else; or an
    error without result, which is a policy violation exactly when a
    [blocked_reason] comes with it.  An exception leaves it only when
    [validate] raised one that is no [PolicyViolationError], and then the
    server is as it was. *)
Theorem execute_tool_answers_are_well_formed (r : ToolRequest) (s : Server) :
  engine (snd (server.execute_tool r s)) = engine s
  /\ (forall response,
        fst (server.execute_tool r s) = Ok response ->
        (success response = true <-> result response <> None)
        /\ (success response = false <-> error response <> None)
        /\ (policy_violation response = true <-> blocked_reason response <> None)
        /\ (policy_violation response = true -> success response = false))
  /\ (forall e,
        fst (server.execute_tool r s) = Raise e ->
        fst (validate (tool_name r) (Some (arguments r)) (context r) (engine s)) = Raise e
        /\ snd (server.execute_tool r s) = s).
Proof.
  assert (Hshape : forall response : ToolResponse,
             (exists x, response = succeeded x)
             \/ (exists e, response = failed e)
             \/ (exists message reason, response = denied message reason) ->
             (success response = true <-> result response <> None)
             /\ (success response = false <-> error response <> None)
             /\ (policy_violation response = true <-> blocked_reason response <> None)
             /\ (policy_violation response = true -> success response = false)).
  { intros response [[x ->] | [[e ->] | [message [reason ->]]]]; simpl;
      repeat split; intros; congruence. }
  rewrite validate_decision, execute_tool_by_decision. simpl.
  destruct (decision (policy (engine s)) (current_mode (engine s)) (tool_name r))
    as [b | e].
  - destruct (_execute_tool_function (tool_name r) (arguments r) (cloud s))
      as [[x | e] w]; simpl.
    + split; [reflexivity |]. split; [| discriminate].
      intros response H. injection H as <-. apply Hshape. left. exists x. reflexivity.
    + split; [reflexivity |]. split; [| discriminate].
      intros response H. injection H as <-. apply Hshape. right; left. exists e. reflexivity.
  - assert (Hother : forall e0 : exn,
               (forall message tool mode reason,
                  e0 <> PolicyViolationError message tool mode reason) ->
               engine (snd (@Raise ToolResponse e0, s)) = engine s
               /\ (forall response, fst (@Raise ToolResponse e0, s) = Ok response ->
                     (success response = true <-> result response <> None)
                     /\ (success response = false <-> error response <> None)
                     /\ (policy_violation response = true
                         <-> blocked_reason response <> None)
                     /\ (policy_violation response = true -> success response = false))
               /\ (forall e', fst (@Raise ToolResponse e0, s) = Raise e' ->
                     Raise e0 = @Raise bool e' /\ snd (@Raise ToolResponse e0, s) = s)).
    { intros e0 _. simpl. split; [reflexivity |]. split; [discriminate |].
      intros e' H. injection H as <-. split; reflexivity. }
    destruct e; try (apply Hother; discriminate).
    simpl. split; [reflexivity |]. split; [| discriminate].
    intros response H. injection H as <-. apply Hshape.
    right; right. exists message, reason. reflexivity.
Qed.

Lemma keyword_unexpected (p k : string) (d : option value) (arguments : dict) :
  mem k arguments = true -> k <> p ->
  keyword_argument p d arguments = Raise TypeError.
Proof.
  intros Hk Hne. unfold keyword_argument.
  assert (H : forallb (fun kv => String.eqb (fst kv) p) arguments = false).
  { unfold mem in Hk. induction arguments as [| [k' v] arguments IH]; simpl in *.
    - discriminate.
    - destruct (String.eqb k k') eqn:E.
      + apply String.eqb_eq in E. subst k'.
        apply String.eqb_neq in Hne. rewrite Hne. reflexivity.
      + rewrite (IH Hk). apply andb_false_r. }
  rewrite H. reflexivity.
Qed.

Lemma keyword_missing (p : string) (arguments : dict) :
  mem p arguments = false -> keyword_argument p None arguments = Raise TypeError.
Proof.
  intros Hp. unfold keyword_argument, mem in *.
  destruct (forallb _ arguments); [| reflexivity].
  destruct (assoc p arguments); [discriminate | reflexivity].
Qed.

(** X18.  A request the policy admits, for a tool of [tool_map], with a
    keyword argument the tool function does not have, or without an
    argument it requires, is answered with "Invalid arguments for <tool>"
    as an execution error, no policy violation; the function is not
    entered, and the server, its log included, is as it was. *)
Theorem refused_arguments_change_nothing (r : ToolRequest) (s : Server) (b : bool) :
  fst (validate (tool_name r) (Some (arguments r)) (context r) (engine s)) = Ok b ->
  mem (tool_name r) tool_map = true ->
  (exists k, mem k (arguments r) = true
             /\ forall p d, parameter_of (tool_name r) = Some (p, d) -> k <> p)
  \/ (exists p, parameter_of (tool_name r) = Some (p, None)
                /\ mem p (arguments r) = false) ->
  server.execute_tool r s = (Ok (invalid_arguments (tool_name r)), s).
Proof.
  intros H Hmap Hargs. rewrite validate_decision in H. simpl in H.
  rewrite execute_tool_by_decision, H.
  assert (Hraise : _execute_tool_function (tool_name r) (arguments r) (cloud s)
                   = (Raise (ValueError [Lit "Invalid arguments for "; Lit (tool_name r);
                                         Lit ": "; Interpreter]),
                      cloud s)).
  { unfold _execute_tool_function.
    unfold mem, tool_map in Hmap. unfold tool_map, parameter_of in *.
    cbn [assoc] in *.
    repeat match goal with
           | |- context [String.eqb (tool_name r) ?name] =>
               let E := fresh "E" in
               destruct (String.eqb (tool_name r) name) eqn:E;
               [apply String.eqb_eq in E; rewrite E in *; clear E | ]
           end;
      try discriminate;
      run;
      destruct Hargs as [[k [Hk Hne]] | [p [Hp Hmiss]]];
      try (rewrite (keyword_unexpected _ k _ _ Hk (Hne _ _ eq_refl)); reflexivity);
      try (injection Hp as <-; rewrite (keyword_missing _ _ Hmiss); reflexivity);
      try discriminate.
    unfold mem in Hk. destruct (arguments r); [discriminate | reflexivity]. }
  rewrite Hraise. unfold failed, invalid_arguments. simpl. rewrite server_eta. reflexivity.
Qed.

(** X18, witness: [scale_fleet] asked for in EMERGENCY mode with [size]
    for [count]. *)
Lemma refused_arguments_change_nothing_witness :
  server.execute_tool {| tool_name := "scale_fleet";
                         arguments := [("size", VInt 5)];
                         context := None |}
    (ops_policy.server_in "EMERGENCY")
  = (Ok (invalid_arguments "scale_fleet"), ops_policy.server_in "EMERGENCY").
Proof.
  apply (refused_arguments_change_nothing
           {| tool_name := "scale_fleet";
              arguments := [("size", VInt 5)];
              context := None |}
           (ops_policy.server_in "EMERGENCY") true).
  - reflexivity.
  - reflexivity.
  - left. exists "size". split; [reflexivity |].
    intros p d Hp. injection Hp as <- _. discriminate.
Defined.

(** X19.  A [scale_fleet] request the policy admits whose [count] is no
    number ([None], a str, a list, a dict) is answered like a request with
    wrong arguments, as an execution error; but the function was entered:
    the attempt is in the execution log with the count it was given, and
    neither the fleet size nor the services have changed. *)
Theorem scale_fleet_with_a_count_that_is_no_number_is_logged
  (r : ToolRequest) (s : Server) (b : bool) (count : value) :
  fst (validate (tool_name r) (Some (arguments r)) (context r) (engine s)) = Ok b ->
  tool_name r = "scale_fleet" ->
  arguments r = [("count", count)] ->
  lt_int count 1 = Raise TypeError ->
  fst (server.execute_tool r s) = Ok (invalid_arguments "scale_fleet")
  /\ engine (snd (server.execute_tool r s)) = engine s
  /\ tools.fleet_size (tools.cloud_infra (cloud (snd (server.execute_tool r s))))
     = tools.fleet_size (tools.cloud_infra (cloud s))
  /\ tools.services (tools.cloud_infra (cloud (snd (server.execute_tool r s))))
     = tools.services (tools.cloud_infra (cloud s))
  /\ tools.execution_log (tools.cloud_infra (cloud (snd (server.execute_tool r s))))
     = (tools.execution_log (tools.cloud_infra (cloud s))
        ++ [tools.log_entry
              (tools.reading (tools.clock (cloud s)) (tools.reads (tools.clock (cloud s))))
              "scale_fleet" [("target_count", count)]])%list.
Proof.
  intros H Htool Hargs Hlt. rewrite validate_decision in H. simpl in H.
  rewrite execute_tool_by_decision, H, Htool, Hargs.
  unfold _execute_tool_function. cbn [assoc tool_map String.eqb Ascii.eqb Bool.eqb].
  run.
  unfold tools.wrapper_scale_fleet, tools.scale_fleet, tools._log_action,
    tools.update, tools.now_isoformat. run.
  rewrite Hlt. simpl. conjuncts; reflexivity.
Qed.

(** X19, witness: a count given as the str "5". *)
Lemma scale_fleet_with_a_count_that_is_no_number_is_logged_witness :
  fst (server.execute_tool {| tool_name := "scale_fleet";
                              arguments := [("count", VStr "5")];
                              context := None |}
         (ops_policy.server_in "EMERGENCY"))
  = Ok (invalid_arguments "scale_fleet").
Proof.
  apply (scale_fleet_with_a_count_that_is_no_number_is_logged
           {| tool_name := "scale_fleet";
              arguments := [("count", VStr "5")];
              context := None |}
           (ops_policy.server_in "EMERGENCY") true (VStr "5"));
    reflexivity.
Defined.

(** X20.  [success] in the answer of [execute_tool] says that the tool
    function returned, not that the operation did what was asked: an
    admitted [scale_fleet] request with an integer count below 1 or above
    100 is answered with [success] true and no error, the refusal is in
    the result, with the status "error", and the fleet size is as it
    was. *)
Theorem refused_scaling_is_answered_as_success
  (r : ToolRequest) (s : Server) (b : bool) (count : Z) :
  fst (validate (tool_name r) (Some (arguments r)) (context r) (engine s)) = Ok b ->
  tool_name r = "scale_fleet" ->
  arguments r = [("count", VInt count)] ->
  (count < 1 \/ 100 < count)%Z ->
  (exists answer,
     fst (server.execute_tool r s)
     = Ok {| success := true;
             result := Some (tools.str answer);
             error := None;
             policy_violation := false;
             blocked_reason := None |}
     /\ assoc "status" answer = Some (tools.str_ "error"))
  /\ tools.fleet_size (tools.cloud_infra (cloud (snd (server.execute_tool r s))))
     = tools.fleet_size (tools.cloud_infra (cloud s)).
Proof.
  intros H Htool Hargs Hout. rewrite validate_decision in H. simpl in H.
  rewrite execute_tool_by_decision, H, Htool, Hargs.
  unfold _execute_tool_function. cbn [assoc tool_map String.eqb Ascii.eqb Bool.eqb].
  run.
  unfold tools.wrapper_scale_fleet, tools.scale_fleet, tools._log_action,
    tools.update, tools.now_isoformat. run.
  destruct (Z.ltb_spec count 1) as [Hlt | Hge]; simpl.
  - split; [eexists; split; reflexivity | reflexivity].
  - assert (Hgt : (count >? 100)%Z = true) by (apply Z.gtb_gt; lia).
    rewrite Hgt. simpl. split; [eexists; split; reflexivity | reflexivity].
Qed.

(** X20, witness: a fleet of 500 asked for in EMERGENCY mode. *)
Lemma refused_scaling_is_answered_as_success_witness :
  tools.fleet_size
    (tools.cloud_infra
       (cloud (snd (server.execute_tool {| tool_name := "scale_fleet";
                                           arguments := [("count", VInt 500)];
                                           context := None |}
                      (ops_policy.server_in "EMERGENCY")))))
  = VInt 3.
Proof.
  apply (refused_scaling_is_answered_as_success
           {| tool_name := "scale_fleet";
              arguments := [("count", VInt 500)];
              context := None |}
           (ops_policy.server_in "EMERGENCY") true 500).
  - reflexivity.
  - reflexivity.
  - reflexivity.
  - right. lia.
Defined.

Lemma last_n_is_a_suffix {A : Type} (n : nat) (l : list A) :
  l = (firstn (length l - n) l ++ last_n n l)%list
  /\ length (last_n n l) = Nat.min n (length l).
Proof.
  unfold last_n. split.
  - symmetry. apply firstn_skipn.
  - rewrite length_skipn. lia.
Qed.

(** X21.  [get_infrastructure_status] shows the end of the execution log:
    its [recent_actions] are the last entries of the log, in their order,
    ten of them, or all when the log has fewer; with them come the
    services and the fleet size as they are, and the server is as it
    was. *)
Theorem get_infrastructure_status_shows_the_last_ten (s : Server) :
  exists older recent,
    get_infrastructure_status s
    = (Returns [("services", tools.services_dict (tools.cloud_infra (cloud s)));
                ("fleet_size", tools.fleet_size (tools.cloud_infra (cloud s)));
                ("recent_actions", VList recent)],
       s)
    /\ tools.execution_log (tools.cloud_infra (cloud s)) = (older ++ recent)%list
    /\ length recent
       = Nat.min 10 (length (tools.execution_log (tools.cloud_infra (cloud s)))).
Proof.
  exists (firstn (length (tools.execution_log (tools.cloud_infra (cloud s))) - 10)
            (tools.execution_log (tools.cloud_infra (cloud s)))),
    (last_n 10 (tools.execution_log (tools.cloud_infra (cloud s)))).
  split; [| apply last_n_is_a_suffix].
  unfold get_infrastructure_status, uncaught, on_cloud, tools.self. run.
  destruct s as [e [c t]]. reflexivity.
Qed.

(** X22.  POST /policy/set-mode, on a policy with a dict of modes: a mode
    that is no key of it is refused with the status 400 and the message of
    the [ValueError], and the server is as it was; a mode whose rules have
    a description and [allowed_tools] is set, the answer names it and
    carries its [allowed_tools], and nothing but the current mode has
    changed. *)
Theorem set_mode_endpoint_answers_400_or_the_new_mode
  (mode : string) (modes : dict) (s : Server) :
  subscript (policy (engine s)) "modes" = Ok (VDict modes) ->
  (mem mode modes = false ->
     endpoints.set_mode mode s
     = (HTTPException 400 [Lit "Invalid mode: "; Lit mode; Lit ". Available: ";
                           Str (VList (map VStr (keys modes)))],
        s))
  /\ (forall rules description allowed_tools,
        assoc mode modes = Some (VDict rules) ->
        assoc "description" rules = Some description ->
        assoc "allowed_tools" rules = Some allowed_tools ->
        endpoints.set_mode mode s
        = (Returns [("success", VBool true);
                    ("new_mode", VStr mode);
                    ("allowed_tools", allowed_tools)],
           {| engine := with_current_mode mode (engine s); cloud := cloud s |})).
Proof.
  intros Hms. split.
  - intros Hm. unfold endpoints.set_mode, on_engine. run.
    rewrite (set_mode_undefined (engine s) mode modes Hms Hm). simpl.
    rewrite server_eta. reflexivity.
  - intros rules description allowed_tools Hm Hd Ha.
    unfold endpoints.set_mode, on_engine. run.
    rewrite (set_mode_returns (engine s) mode modes rules description Hms Hm Hd). simpl.
    unfold get_allowed_tools, subscript2. run. rewrite Hms. simpl.
    unfold getitem. rewrite Hm. simpl. unfold getitem. rewrite Ha. reflexivity.
Qed.

(** X22, witness: "MAINTENANCE" and "EMERGENCY" asked of the
    demonstration policy. *)
Lemma set_mode_endpoint_answers_400_or_the_new_mode_witness :
  endpoints.set_mode "MAINTENANCE" (ops_policy.server_in "NORMAL")
  = (HTTPException 400 [Lit "Invalid mode: "; Lit "MAINTENANCE"; Lit ". Available: ";
                        Str (VList [VStr "NORMAL"; VStr "EMERGENCY"])],
     ops_policy.server_in "NORMAL")
  /\ endpoints.set_mode "EMERGENCY" (ops_policy.server_in "NORMAL")
     = (Returns [("success", VBool true);
                 ("new_mode", VStr "EMERGENCY");
                 ("allowed_tools",
                    ops_policy.strs ["get_service_status"; "read_logs"; "list_services";
                                     "restart_service"; "scale_fleet"])],
        ops_policy.server_in "EMERGENCY").
Proof.
  split.
  - apply (set_mode_endpoint_answers_400_or_the_new_mode
             "MAINTENANCE" ops_policy.modes (ops_policy.server_in "NORMAL") eq_refl).
    reflexivity.
  - apply (set_mode_endpoint_answers_400_or_the_new_mode
             "EMERGENCY" ops_policy.modes (ops_policy.server_in "NORMAL") eq_refl)
      with (rules := ops_policy.emergency_rules)
           (description := VStr "Incident response");
      reflexivity.
Defined.

(** X23.  POST /infrastructure/simulate-incident answers with [success]
    true whether the service exists or not: for a name that is no service
    the server is as it was; for a service its health becomes the status
    given, or "critical" when none is given. *)
Theorem simulate_incident_always_answers_success
  (service : string) (status : option string) (s : Server) :
  let given := match status with Some given => given | None => "critical" end in
  fst (simulate_incident service status s)
  = Returns [("success", tools.Val (VBool true));
             ("message", tools.Fmt [Lit "Simulated incident: "; Lit service;
                                    Lit " set to "; Lit given])]
  /\ (mem service (tools.services (tools.cloud_infra (cloud s))) = false ->
      snd (simulate_incident service status s) = s)
  /\ (mem service (tools.services (tools.cloud_infra (cloud s))) = true ->
      assoc service
        (tools.services (tools.cloud_infra (cloud (snd (simulate_incident service status s)))))
      = Some given).
Proof.
  simpl. unfold simulate_incident, uncaught, on_cloud, tools.set_service_health,
    tools.self, tools.update. run.
  destruct (mem service (tools.services (tools.cloud_infra (cloud s)))) eqn:Hm; simpl.
  - split; [reflexivity |]. split; [discriminate |].
    intros _. apply assoc_setitem_same.
  - split; [reflexivity |]. split; [| discriminate].
    intros _. destruct s as [e [c t]]. reflexivity.
Qed.

End Gateway_coverage.
